(** * Talknaw auth service: the account route handlers

    A shallow embedding of [app/api/user/views.py] and
    [app/api/example/schemas.py].

    The handlers are thin orchestration over collaborators that live in other
    modules of the service ([UserService], [OTPGenerator], [refreshJWT], the
    task functions).  A handler is modelled as a computation over a [World]:
    the store behind the database session, the ordered log of collaborator
    invocations the handler made, and the request's [BackgroundTasks] queue.
    The collaborators themselves are a record of functions on the store: a
    statement about a handler holds for any implementation of them.  Where a
    statement is about what a collaborator answers, it is made on the
    in-memory implementation [InMemory], written after the specification. *)

From Stdlib Require Import DecimalString.
From stdpp Require Import base option list strings gmap.

Open Scope string_scope.
Open Scope list_scope.

(** ** Python values *)

(** [uuid.UUID]: a 128-bit number. *)
Definition UUID := N.

(** [datetime.datetime], as a POSIX timestamp. *)
Definition datetime := Z.

(** The Python objects that reach a response body or a task's keyword
    arguments. *)
#[warnings="-register-all"]
Inductive value :=
| VNone
| VBool (b : bool)
| VStr (s : string)
| VUuid (u : UUID)
| VDatetime (t : datetime)
| VTuple (items : list value)
| VList (items : list value)
| VDict (entries : list (string * value)).

(** [d[key]] on a dict literal. *)
Fixpoint assoc (key : string) (entries : list (string * value))
    : option value :=
  match entries with
  | [] => None
  | (k, v) :: rest => if String.eqb k key then Some v else assoc key rest
  end.

Definition py_getitem (d : value) (key : string) : option value :=
  match d with
  | VDict entries => assoc key entries
  | _ => None
  end.

(** Exception kinds that cross the handlers. *)
Inductive exn :=
| NotFound
| Unauthorized
| InvalidCredential
| TokenInvalid
| ValidationError
| OtherError (name : string).

(** How an awaited call ends: it returns, it raises, or it has not completed
    (within the fuel given to a loop). *)
Inductive result (A : Type) :=
| Returned (a : A)
| Raised (e : exn)
| Unfinished.
Arguments Returned {A} a.
Arguments Raised {A} e.
Arguments Unfinished {A}.

(** ** Request bodies ([app/api/user/schemas.py] declares them) *)

Module UsernameChange.
Record t := { new_username : string }.
End UsernameChange.

Module OTPVerify.
Record t (OTP : Type) := { email : string; otp : OTP }.
Arguments email {OTP} _.
Arguments otp {OTP} _.
End OTPVerify.

Module ResetPassword.
Record t (OTP : Type) := { token : OTP; new_password : string }.
Arguments token {OTP} _.
Arguments new_password {OTP} _.
End ResetPassword.

(** ** Background tasks ([fastapi.BackgroundTasks]) *)

(** The task functions of [app/api/user/tasks.py] that handlers schedule. *)
Inductive task_func := send_mail | create_profile.

(** One [add_task(func, **kwargs)] entry. *)
Record Task := { func : task_func; kwargs : list (string * value) }.

(** ** Collaborators *)

Section Collaborators.
Context {Store Session User OTP AsyncGen : Type}.

(** A collaborator operation acts on the store and returns or raises. *)
Definition act (A : Type) : Type := Store → result A * Store.

(** [UserService(session=...)]; [UserService()] leaves the session out. *)
Record UserService := { session : option Session }.

(** [OTPGenerator(user_id=..., session=...)]. *)
Record OTPGenerator := { user_id : UUID; otp_session : Session }.

(** An item the username-update generator yields; the handler reads the
    keys ["user_id"] and ["username"] of it. *)
Record Item := { item_user_id : value; item_username : value }.

Record Services := {
  (* the user row: [user.id] *)
  User_id : User → UUID;
  (* [format(otp, "")], what an f-string interpolates for [{otp}] *)
  OTP_format : OTP → string;
  (* app.api.user.services.UserService *)
  UserService_find_by_email : UserService → string → act User;
  UserService_forgot_password : UserService → string → act value;
  UserService_password_reset :
    UserService → string → ResetPassword.t OTP → act value;
  UserService_decode_token : UserService → value → act value;
  (* calling an async generator function only creates the generator *)
  UserService_update_username : UserService → UUID → string → AsyncGen;
  (* [__anext__]: run the generator to its next [yield] ([Some]) or to its
     end ([None], StopAsyncIteration) *)
  AsyncGen_anext : AsyncGen → act (option (Item * AsyncGen));
  (* app.api.user.otp.OTPGenerator *)
  OTPGenerator_get_otp : OTPGenerator → act OTP;
  OTPGenerator_check_otp : OTPGenerator → OTP → act (value * bool);
  (* app.api.user.authentication *)
  refreshJWT : string → act value;
  (* app.api.user.tasks *)
  update_username_in_social : value → value → act value;
  run_task : task_func → list (string * value) → act value
}.

(** ** The handler monad *)

(** A collaborator invocation made by a handler, or an item received from
    the generator. *)
Inductive Event :=
| Call_find_by_email (email : string)
| Call_forgot_password (email : string)
| Call_password_reset (email : string) (password : ResetPassword.t OTP)
| Call_decode_token (token : value)
| Call_anext
| Yield (item : Item)
| Call_get_otp (user_id : UUID)
| Call_check_otp (user_id : UUID) (otp : OTP)
| Call_refreshJWT (refresh_token : string)
| Call_update_username_in_social (user_id username : value)
| Call_task (f : task_func) (kw : list (string * value)).

Record World := {
  store : Store;
  calls : list Event;
  background_tasks : list Task
}.

Definition M (A : Type) : Type := World → result A * World.

#[export] Instance M_ret : MRet M := λ A a w, (Returned a, w).

#[export] Instance M_bind : MBind M := λ A B k m w,
  match m w with
  | (Returned a, w') => k a w'
  | (Raised e, w') => (Raised e, w')
  | (Unfinished, w') => (Unfinished, w')
  end.

Definition unfinished {A} : M A := λ w, (Unfinished, w).

Definition log (ev : Event) : M () := λ w,
  (Returned (),
   {| store := store w; calls := calls w ++ [ev];
      background_tasks := background_tasks w |}).

Definition on_store {A} (f : act A) : M A := λ w,
  let '(r, s) := f (store w) in
  (r, {| store := s; calls := calls w;
         background_tasks := background_tasks w |}).

(** [await f(...)]: the invocation is logged, then the collaborator runs. *)
Definition call {A} (ev : Event) (f : act A) : M A :=
  log ev;; on_store f.

(** [background_tasks.add_task(func, **kwargs)]: the task is appended to the
    queue; nothing runs. *)
Definition add_task (f : task_func) (kw : list (string * value)) : M () :=
  λ w,
  (Returned (),
   {| store := store w; calls := calls w;
      background_tasks :=
        background_tasks w ++ [{| func := f; kwargs := kw |}] |}).

(** [async for item in gen: body(item)].  Each round resumes the generator;
    the body runs to completion before the generator is resumed again. *)
Fixpoint async_for (sv : Services) (fuel : nat) (gen : AsyncGen)
    (body : Item → M ()) : M () :=
  match fuel with
  | O => unfinished
  | S fuel' =>
      r ← call Call_anext (AsyncGen_anext sv gen);
      match r with
      | None => mret ()
      | Some (item, gen') =>
          log (Yield item);;
          body item;;
          async_for sv fuel' gen' body
      end
  end.
End Collaborators.

Arguments UserService : clear implicits.
Arguments OTPGenerator : clear implicits.
Arguments Services : clear implicits.
Arguments Event : clear implicits.
Arguments World : clear implicits.
Arguments M : clear implicits.
Arguments act : clear implicits.

(** ** The route handlers of [app/api/user/views.py] *)

Section Views.
Context {Store Session User OTP AsyncGen : Type}.
Variable sv : Services Store Session User OTP AsyncGen.

#[local] Abbreviation M := (M Store OTP).

(** The body of the loop of [update_username]: the awaited propagation of
    one item; its value is dropped. *)
Definition propagate (item : Item) : M () :=
  call (Call_update_username_in_social
          (item_user_id item) (item_username item))
       (update_username_in_social sv
          (item_user_id item) (item_username item));;
  mret ().

(** [PATCH /change/username].  [user_id] is what the bearer-token dependency
    resolved for the caller; [fuel] bounds the rounds of the [async for]
    loop, the handler is [Unfinished] when the generator outlasts it. *)
Definition update_username (fuel : nat) (user_data : UsernameChange.t)
    (session : Session) (user_id : UUID) : M value :=
  let user_service := {| session := Some session |} in
  async_for sv fuel
    (UserService_update_username sv user_service user_id
       (UsernameChange.new_username user_data))
    propagate;;
  mret (VDict [("detail",
                VStr ("Username updated to "
                      +:+ UsernameChange.new_username user_data));
               ("status", VBool true)]).

(** [GET /otp/send/{email}]. *)
Definition get_otp (email : string) (session : Session) : M value :=
  let user_service := {| session := Some session |} in
  user ← call (Call_find_by_email email)
            (UserService_find_by_email sv user_service email);
  let otp_gen := {| user_id := User_id sv user; otp_session := session |} in
  otp ← call (Call_get_otp (user_id otp_gen))
           (OTPGenerator_get_otp sv otp_gen);
  let subject := "OTP" in
  let message :=
    "Complete your verification process with this OTP: "
    +:+ OTP_format sv otp in
  add_task send_mail
    [("subject", VStr subject); ("message", VStr message);
     ("recipient_list", VList [VStr email])];;
  mret (VDict [("detail", VStr "OTP has been sent to your email");
               ("status", VBool true)]).

(** [POST /otp/verify]. *)
Definition verify_otp (otp_data : OTPVerify.t OTP) (session : Session)
    : M value :=
  let user_service := {| session := Some session |} in
  user ← call (Call_find_by_email (OTPVerify.email otp_data))
            (UserService_find_by_email sv user_service
               (OTPVerify.email otp_data));
  let otp_gen := {| user_id := User_id sv user; otp_session := session |} in
  '(message, status) ←
    call (Call_check_otp (user_id otp_gen) (OTPVerify.otp otp_data))
         (OTPGenerator_check_otp sv otp_gen (OTPVerify.otp otp_data));
  mret (VDict [("detail", message); ("status", VBool status)]).

(** [POST /refresh_token]. *)
Definition refresh_token (refresh_token : string) : M value :=
  access_token ← call (Call_refreshJWT refresh_token)
                    (refreshJWT sv refresh_token);
  user_id ← call (Call_decode_token access_token)
               (UserService_decode_token sv {| session := None |}
                  access_token);
  mret (VDict [("user_id", user_id);
               ("access_token", access_token);
               ("refresh_token", VStr refresh_token)]).

(** The line feed of a triple-quoted literal. *)
Definition LF : string := String (Ascii.ascii_of_nat 10) "".

(** [GET /forgot_password/{email}]. *)
Definition verify_email (email : string) (session : Session) : M value :=
  let user_service := {| session := Some session |} in
  user ← call (Call_find_by_email email)
            (UserService_find_by_email sv user_service email);
  let otp_gen := {| user_id := User_id sv user; otp_session := session |} in
  otp ← call (Call_get_otp (user_id otp_gen))
           (OTPGenerator_get_otp sv otp_gen);
  let subject := VTuple [VStr "Forgot Password"] in
  let message :=
    LF +:+ "        You requested to reset your password." +:+ LF
    +:+ "        Complete the process with this token: "
    +:+ OTP_format sv otp +:+ LF
    +:+ LF +:+ "        " in
  let message := "Complete the process with this token: "
                 +:+ OTP_format sv otp in
  add_task send_mail
    [("subject", subject); ("message", VStr message);
     ("recipient_list", VList [VStr email])];;
  call (Call_forgot_password email)
       (UserService_forgot_password sv user_service email).

(** [POST /reset_password/{email}]. *)
Definition reset_password (email : string) (password : ResetPassword.t OTP)
    (session : Session) : M value :=
  let user_service := {| session := Some session |} in
  user ← call (Call_find_by_email email)
            (UserService_find_by_email sv user_service email);
  let otp_gen := {| user_id := User_id sv user; otp_session := session |} in
  '(message, status) ←
    call (Call_check_otp (user_id otp_gen) (ResetPassword.token password))
         (OTPGenerator_check_otp sv otp_gen (ResetPassword.token password));
  if negb status
  then mret (VDict [("detail", message); ("status", VBool status)])
  else call (Call_password_reset email password)
            (UserService_password_reset sv user_service email password).

(** *** The request around a handler *)

(** [BackgroundTasks.__call__]: the queued tasks run one after the other; a
    task that raises ends the run. *)
Fixpoint run_background (tasks : list Task) : M () :=
  match tasks with
  | [] => mret ()
  | t :: rest =>
      call (Call_task (func t) (kwargs t)) (run_task sv (func t) (kwargs t));;
      run_background rest
  end.

(** One request.  The handler's return value is the response body; the
    response is sent, and the queued tasks run after that.  When the handler
    raises, the framework answers with an error and the queue is dropped. *)
Definition serve (handler : M value) : M value := λ w,
  match handler w with
  | (Returned body, w') =>
      (Returned body, (run_background (background_tasks w') w').2)
  | other => other
  end.

(** *** Password reset, the way section 4.3 of the specification words it *)

(** Verify the token through the OTP verification flow; on a false status
    return that body, otherwise delegate to [password_reset]. *)
Definition reset_password_via_verify_otp (email : string)
    (password : ResetPassword.t OTP) (session : Session) : M value :=
  body ← verify_otp
           {| OTPVerify.email := email;
              OTPVerify.otp := ResetPassword.token password |} session;
  match py_getitem body "status" with
  | Some (VBool false) => mret body
  | _ => call (Call_password_reset email password)
              (UserService_password_reset sv {| session := Some session |}
                 email password)
  end.

End Views.

(** ** Worlds and variations of the collaborators *)

Section Variations.
Context {Store Session User OTP AsyncGen : Type}.

(** The world a request starts in: nothing invoked, nothing queued. *)
Definition request_start (s : Store) : World Store OTP :=
  {| store := s; calls := []; background_tasks := [] |}.

(** The same collaborators with another task runner. *)
Definition with_run_task (sv : Services Store Session User OTP AsyncGen)
    (f : task_func → list (string * value) → act Store value)
    : Services Store Session User OTP AsyncGen :=
  {| User_id := User_id sv;
     OTP_format := OTP_format sv;
     UserService_find_by_email := UserService_find_by_email sv;
     UserService_forgot_password := UserService_forgot_password sv;
     UserService_password_reset := UserService_password_reset sv;
     UserService_decode_token := UserService_decode_token sv;
     UserService_update_username := UserService_update_username sv;
     AsyncGen_anext := AsyncGen_anext sv;
     OTPGenerator_get_otp := OTPGenerator_get_otp sv;
     OTPGenerator_check_otp := OTPGenerator_check_otp sv;
     refreshJWT := refreshJWT sv;
     update_username_in_social := update_username_in_social sv;
     run_task := f |}.

(** The same collaborators with another OTP source. *)
Definition with_get_otp (sv : Services Store Session User OTP AsyncGen)
    (g : OTPGenerator Session → act Store OTP)
    : Services Store Session User OTP AsyncGen :=
  {| User_id := User_id sv;
     OTP_format := OTP_format sv;
     UserService_find_by_email := UserService_find_by_email sv;
     UserService_forgot_password := UserService_forgot_password sv;
     UserService_password_reset := UserService_password_reset sv;
     UserService_decode_token := UserService_decode_token sv;
     UserService_update_username := UserService_update_username sv;
     AsyncGen_anext := AsyncGen_anext sv;
     OTPGenerator_get_otp := g;
     OTPGenerator_check_otp := OTPGenerator_check_otp sv;
     refreshJWT := refreshJWT sv;
     update_username_in_social := update_username_in_social sv;
     run_task := run_task sv |}.

(** The events of a log that are propagation calls, and those that are
    yielded items. *)
Definition propagations (evs : list (Event OTP)) : list (value * value) :=
  omap (λ ev, match ev with
              | Call_update_username_in_social u n => Some (u, n)
              | _ => None
              end) evs.

Definition yielded (evs : list (Event OTP)) : list Item :=
  omap (λ ev, match ev with Yield it => Some it | _ => None end) evs.

(** The log of one round of the [async for] loop that receives [it], and of
    a completed loop over [items]: the last resumption ends the generator. *)
Definition round (it : Item) : list (Event OTP) :=
  [Call_anext; Yield it;
   Call_update_username_in_social (item_user_id it) (item_username it)].

Definition rounds (items : list Item) : list (Event OTP) :=
  flat_map round items ++ [Call_anext].

Definition is_password_reset (ev : Event OTP) : bool :=
  match ev with
  | Call_password_reset _ _ => true
  | _ => false
  end.

Definition is_task_run (ev : Event OTP) : bool :=
  match ev with
  | Call_task _ _ => true
  | _ => false
  end.

End Variations.

(** ** When the username-update loop completes *)

Section Drains.
Context {Store Session User OTP AsyncGen : Type}.
Variable sv : Services Store Session User OTP AsyncGen.

(** [drains gen s items s']: resumed from store [s], with the propagation of
    each item run before the next resumption, the generator yields [items]
    and then ends, and the store is [s']. *)
Inductive drains : AsyncGen → Store → list Item → Store → Prop :=
| drains_stop gen s s' :
    AsyncGen_anext sv gen s = (Returned None, s') →
    drains gen s [] s'
| drains_yield gen s item gen' s1 r s2 items s3 :
    AsyncGen_anext sv gen s = (Returned (Some (item, gen')), s1) →
    update_username_in_social sv (item_user_id item) (item_username item) s1
      = (Returned r, s2) →
    drains gen' s2 items s3 →
    drains gen s (item :: items) s3.

End Drains.

(** ** An in-memory implementation of the collaborators

    The modules behind the handlers are not part of the two files above.
    This implementation follows what the specification says about them; the
    handlers run on it for concrete requests. *)

Module InMemory.

Record UserRow := {
  row_id : UUID;
  row_email : string;
  row_username : string;
  row_password : string
}.

Record OtpEntry := { code : string; expires_at : Z }.

Record Store := {
  users : gmap string UserRow;          (* keyed by email *)
  otps : gmap N OtpEntry;               (* keyed by user id *)
  now : Z;                              (* the clock *)
  issued : N;                           (* codes issued so far *)
  refresh_tokens : gmap string UUID;    (* valid refresh tokens *)
  profiles : list UUID;                 (* copies of profile data, by owner *)
  social : list (value * value);        (* what reached the social service *)
  outbox : list (list (string * value)) (* mails sent *)
}.

Definition Session := unit.

(** The generator of [update_username]: not started, or the items still to
    be yielded. *)
Inductive Gen :=
| GStart (user_id : UUID) (username : string)
| GRest (items : list Item).

Definition set_users (f : gmap string UserRow → gmap string UserRow)
    (st : Store) : Store :=
  {| users := f (users st); otps := otps st; now := now st;
     issued := issued st; refresh_tokens := refresh_tokens st;
     profiles := profiles st; social := social st; outbox := outbox st |}.

Definition set_otp (uid : UUID) (e : OtpEntry) (st : Store) : Store :=
  {| users := users st; otps := <[uid := e]> (otps st); now := now st;
     issued := N.succ (issued st); refresh_tokens := refresh_tokens st;
     profiles := profiles st; social := social st; outbox := outbox st |}.

Definition add_social (u n : value) (st : Store) : Store :=
  {| users := users st; otps := otps st; now := now st;
     issued := issued st; refresh_tokens := refresh_tokens st;
     profiles := profiles st; social := social st ++ [(u, n)];
     outbox := outbox st |}.

Definition add_mail (kw : list (string * value)) (st : Store) : Store :=
  {| users := users st; otps := otps st; now := now st;
     issued := issued st; refresh_tokens := refresh_tokens st;
     profiles := profiles st; social := social st;
     outbox := outbox st ++ [kw] |}.

(** Modelled from the spec: [UserService.find_by_email] resolves an email to
    a user and fails with NotFound if no such user exists. *)
Definition find_by_email (_ : UserService Session) (email : string)
    : act Store UserRow := λ st,
  match users st !! email with
  | Some row => (Returned row, st)
  | None => (Raised NotFound, st)
  end.

(** How long a code stays valid, in seconds. *)
Definition otp_ttl : Z := 300.

(** Modelled from the spec: [OTPGenerator.get_otp] hands out a code tied to
    the user id; it reuses a pending code or creates one. *)
Definition get_otp (g : OTPGenerator Session) : act Store string := λ st,
  let fresh :=
    NilZero.string_of_uint (N.to_uint (100000 + issued st)) in
  match otps st !! user_id g with
  | Some e =>
      if bool_decide (now st ≤ expires_at e)%Z then (Returned (code e), st)
      else (Returned fresh,
            set_otp (user_id g)
              {| code := fresh; expires_at := now st + otp_ttl |} st)
  | None =>
      (Returned fresh,
       set_otp (user_id g)
         {| code := fresh; expires_at := now st + otp_ttl |} st)
  end.

(** Modelled from the spec: [OTPGenerator.check_otp] returns a message and a
    flag; the flag is true for a correct, unexpired code and false for an
    incorrect one, and a mismatch is not raised as an exception. *)
Definition check_otp (g : OTPGenerator Session) (otp : string)
    : act Store (value * bool) := λ st,
  match otps st !! user_id g with
  | Some e =>
      if bool_decide (code e = otp) && bool_decide (now st ≤ expires_at e)%Z
      then (Returned (VStr "OTP verified", true), st)
      else (Returned (VStr "Invalid or expired OTP", false), st)
  | None => (Returned (VStr "Invalid or expired OTP", false), st)
  end.

Definition set_password (new_password : string) (row : UserRow) : UserRow :=
  {| row_id := row_id row; row_email := row_email row;
     row_username := row_username row; row_password := new_password |}.

Definition set_username (uid : UUID) (username : string) (row : UserRow)
    : UserRow :=
  if bool_decide (row_id row = uid)
  then {| row_id := row_id row; row_email := row_email row;
          row_username := username; row_password := row_password row |}
  else row.

(** Modelled from the spec: [UserService.password_reset] is the operation
    that changes the stored password of the user with that email. *)
Definition password_reset (_ : UserService Session) (email : string)
    (password : ResetPassword.t string) : act Store value := λ st,
  match users st !! email with
  | Some row =>
      (Returned (VDict [("detail", VStr "Password reset successful");
                        ("status", VBool true)]),
       set_users
         <[email := set_password (ResetPassword.new_password password) row]>
         st)
  | None => (Raised NotFound, st)
  end.

Definition forgot_password (_ : UserService Session) (email : string)
    : act Store value := λ st,
  (Returned (VDict [("detail", VStr "Password reset token sent");
                    ("status", VBool true)]), st).

(** Modelled from the spec: [refreshJWT] exchanges a refresh token for an
    access token and fails with an authentication error when the refresh
    token is not valid. *)
Definition refreshJWT (refresh_token : string) : act Store value := λ st,
  match refresh_tokens st !! refresh_token with
  | Some uid => (Returned (VTuple [VStr "access"; VUuid uid]), st)
  | None => (Raised TokenInvalid, st)
  end.

(** Modelled from the spec: [decode_token] recovers the user identifier from
    an access token. *)
Definition decode_token (_ : UserService Session) (token : value)
    : act Store value := λ st,
  match token with
  | VTuple [VStr "access"; VUuid uid] => (Returned (VUuid uid), st)
  | _ => (Raised TokenInvalid, st)
  end.

(** Modelled from the spec: [update_username] produces one update result per
    related record that needs propagation. *)
Definition update_username (_ : UserService Session) (uid : UUID)
    (username : string) : Gen := GStart uid username.

Definition anext (g : Gen) : act Store (option (Item * Gen)) := λ st,
  let '(items, st') :=
    match g with
    | GStart uid username =>
        (map (λ owner, {| item_user_id := VUuid owner;
                          item_username := VStr username |})
             (filter (λ owner, owner = uid) (profiles st)),
         set_users (fmap (set_username uid username)) st)
    | GRest items => (items, st)
    end in
  match items with
  | [] => (Returned None, st')
  | item :: rest => (Returned (Some (item, GRest rest)), st')
  end.

Definition update_username_in_social (u n : value) : act Store value :=
  λ st, (Returned VNone, add_social u n st).

Definition run_task (f : task_func) (kw : list (string * value))
    : act Store value := λ st,
  match f with
  | send_mail => (Returned VNone, add_mail kw st)
  | create_profile => (Returned VNone, st)
  end.

Definition services : Services Store Session UserRow string Gen :=
  @Build_Services Store Session UserRow string Gen
    row_id id
    find_by_email forgot_password password_reset decode_token
    update_username anext
    get_otp check_otp
    refreshJWT
    update_username_in_social run_task.

(** A store with one user, a pending code and a valid refresh token. *)
Definition alice : UserRow :=
  {| row_id := 7%N; row_email := "a@b.com"; row_username := "alice";
     row_password := "old-secret" |}.

Definition store0 : Store :=
  {| users := {[ "a@b.com" := alice ]};
     otps := {[ 7%N := {| code := "123456"; expires_at := 1300 |} ]};
     now := 1000;
     issued := 1;
     refresh_tokens := {[ "R1" := 7%N ]};
     profiles := [7%N; 9%N; 7%N];
     social := [];
     outbox := [] |}.

End InMemory.

(** ** The schemas of [app/api/example/schemas.py] *)

Module Schemas.

(** The annotations the two classes use. *)
Inductive annotation :=
| T_str
| T_bool
| T_UUID
| T_datetime
| T_Optional (a : annotation).

(** One annotated class attribute; [default] is [Some v] for [= v] and [None]
    when the attribute has no default. *)
Record FieldInfo := {
  name : string;
  annotation_of : annotation;
  default : option value
}.

(** The inner [class Config]. *)
Record Config := { from_attributes : bool }.

(** A model class: [BaseModel] itself, or a class statement with its base,
    its own annotated attributes in order, and its own [Config] if it has
    one. *)
Inductive ModelClass :=
| BaseModel
| Class (cls_name : string) (base : ModelClass)
    (own_fields : list FieldInfo) (own_config : option Config).

Definition ExampleCreateSchema : ModelClass :=
  Class "ExampleCreateSchema" BaseModel
    [ {| name := "id"; annotation_of := T_Optional T_UUID;
         default := Some VNone |};
      {| name := "name"; annotation_of := T_str; default := None |};
      {| name := "active"; annotation_of := T_bool; default := None |} ]
    (Some {| from_attributes := true |}).

Definition ExampleSchema : ModelClass :=
  Class "ExampleSchema" ExampleCreateSchema
    [ {| name := "created_at"; annotation_of := T_Optional T_datetime;
         default := None |};
      {| name := "updated_at"; annotation_of := T_Optional T_datetime;
         default := None |} ]
    None.

(** A redeclared attribute replaces the inherited one in place; new ones
    follow the inherited ones. *)
Definition redeclare (inherited : list FieldInfo) (f : FieldInfo)
    : list FieldInfo :=
  if existsb (λ g, String.eqb (name g) (name f)) inherited
  then map (λ g, if String.eqb (name g) (name f) then f else g) inherited
  else inherited ++ [f].

(** [cls.model_fields]. *)
Fixpoint model_fields (cls : ModelClass) : list FieldInfo :=
  match cls with
  | BaseModel => []
  | Class _ base own _ => fold_left redeclare own (model_fields base)
  end.

(** [cls.model_config]: a class without a [Config] of its own has the one of
    its base. *)
Fixpoint model_config (cls : ModelClass) : Config :=
  match cls with
  | BaseModel => {| from_attributes := false |}
  | Class _ base _ (Some c) => c
  | Class _ base _ None => model_config base
  end.

(** A value of the annotated type. ([Optional[T]] is [T] or [None].) *)
Fixpoint conforms (a : annotation) (v : value) : bool :=
  match a, v with
  | T_str, VStr _ => true
  | T_bool, VBool _ => true
  | T_UUID, VUuid _ => true
  | T_datetime, VDatetime _ => true
  | T_Optional _, VNone => true
  | T_Optional a', _ => conforms a' v
  | _, _ => false
  end.

(** What a model is built from: a mapping, or an arbitrary object whose
    attributes are read. *)
Inductive source :=
| FromDict (entries : list (string * value))
| FromObject (attributes : list (string * value)).

Definition validate_field (given : list (string * value)) (f : FieldInfo)
    : option (string * value) :=
  match assoc (name f) given with
  | Some v => if conforms (annotation_of f) v then Some (name f, v) else None
  | None => match default f with
            | Some d => Some (name f, d)
            | None => None
            end
  end.

(** [cls.model_validate(obj)]: the validated fields in declaration order, or
    [None] for a validation error.  An object that is not a mapping is read
    through its attributes only under [from_attributes]. *)
Definition model_validate (cls : ModelClass) (obj : source)
    : option (list (string * value)) :=
  match obj with
  | FromDict entries => mapM (validate_field entries) (model_fields cls)
  | FromObject attributes =>
      if from_attributes (model_config cls)
      then mapM (validate_field attributes) (model_fields cls)
      else None
  end.

Definition option_value {A} (inj : A → value) (o : option A) : value :=
  match o with
  | Some a => inj a
  | None => VNone
  end.

(** The attributes of a persisted example entity. *)
Definition entity (id : option UUID) (name : string) (active : bool)
    (created_at updated_at : option datetime) : list (string * value) :=
  [ ("id", option_value VUuid id);
    ("name", VStr name);
    ("active", VBool active);
    ("created_at", option_value VDatetime created_at);
    ("updated_at", option_value VDatetime updated_at) ].

End Schemas.

(** ** Signup *)

Section Signup.
Context {Store Session OTP NewUser : Type}.

(** [UserService.create_user], the collaborator of the signup handler.  It
    is no member of [Services] and has no event of its own in the log: its
    invocation acts on the store. *)
Variable UserService_create_user :
  UserService Session → NewUser → act Store value.

(** The keyword list of an [add_task(func, *args)] entry: the positional
    arguments, kept as the tuple [*args]. *)
Definition positional (args : list value) : list (string * value) :=
  [("*args", VTuple args)].

(** [POST /signup]. *)
Definition create_user (user : NewUser) (session : Session)
    : M Store OTP value :=
  let user_service := {| session := Some session |} in
  result ← on_store (UserService_create_user user_service user);
  add_task create_profile (positional [result]);;
  mret result.

End Signup.

(** ** Partial runs of the username-update loop *)

Section DrainsTo.
Context {Store Session User OTP AsyncGen : Type}.
Variable sv : Services Store Session User OTP AsyncGen.

(** [drains_to gen s items gen' s']: resumed from store [s], the generator
    yields [items], each propagation returns, and the loop stands before its
    next resumption with the generator [gen'] and the store [s']. *)
Inductive drains_to
  : AsyncGen → Store → list Item → AsyncGen → Store → Prop :=
| drains_to_here gen s : drains_to gen s [] gen s
| drains_to_round gen s item gen1 s1 r s2 items gen' s' :
    AsyncGen_anext sv gen s = (Returned (Some (item, gen1)), s1) →
    update_username_in_social sv (item_user_id item) (item_username item) s1
      = (Returned r, s2) →
    drains_to gen1 s2 items gen' s' →
    drains_to gen s (item :: items) gen' s'.

(** The same collaborators with another social service. *)
Definition with_social (f : value → value → act Store value)
    : Services Store Session User OTP AsyncGen :=
  {| User_id := User_id sv;
     OTP_format := OTP_format sv;
     UserService_find_by_email := UserService_find_by_email sv;
     UserService_forgot_password := UserService_forgot_password sv;
     UserService_password_reset := UserService_password_reset sv;
     UserService_decode_token := UserService_decode_token sv;
     UserService_update_username := UserService_update_username sv;
     AsyncGen_anext := AsyncGen_anext sv;
     OTPGenerator_get_otp := OTPGenerator_get_otp sv;
     OTPGenerator_check_otp := OTPGenerator_check_otp sv;
     refreshJWT := refreshJWT sv;
     update_username_in_social := f;
     run_task := run_task sv |}.

End DrainsTo.

(** ** Signup on the in-memory store *)

Module InMemorySignup.

(** Modelled from the spec: [UserService.create_user] stores the new user and
    answers with the token pair of the new account. *)
Definition create_user (_ : UserService InMemory.Session)
    (row : InMemory.UserRow) : act InMemory.Store value := λ st,
  match InMemory.users st !! InMemory.row_email row with
  | Some _ => (Raised (OtherError "EmailTaken"), st)
  | None =>
      (Returned
         (VDict [("user_id", VUuid (InMemory.row_id row));
                 ("access_token",
                  VTuple [VStr "access"; VUuid (InMemory.row_id row)]);
                 ("refresh_token", VStr "R2")]),
       InMemory.set_users <[InMemory.row_email row := row]> st)
  end.

Definition bob : InMemory.UserRow :=
  {| InMemory.row_id := 8%N; InMemory.row_email := "bob@b.com";
     InMemory.row_username := "bob"; InMemory.row_password := "pw" |}.

(** A social service that is down. *)
Definition social_down (_ _ : value) : act InMemory.Store value :=
  λ st, (Raised (OtherError "ConnectionError"), st).

End InMemorySignup.

(** * Properties *)

(** ** The handler monad *)

Section MonadFacts.
Context {Store Session User OTP AsyncGen : Type}.

#[local] Abbreviation M := (M Store OTP).
#[local] Abbreviation World := (World Store OTP).

Lemma bind_returned {A B} (m : M A) (k : A → M B) (w w' : World) a :
  m w = (Returned a, w') → (m ≫= k) w = k a w'.
Proof. intros H. unfold mbind, M_bind. now rewrite H. Qed.

Lemma bind_raised {A B} (m : M A) (k : A → M B) (w w' : World) e :
  m w = (Raised e, w') → (m ≫= k) w = (Raised e, w').
Proof. intros H. unfold mbind, M_bind. now rewrite H. Qed.

Lemma bind_unfinished {A B} (m : M A) (k : A → M B) (w w' : World) :
  m w = (Unfinished, w') → (m ≫= k) w = (Unfinished, w').
Proof. intros H. unfold mbind, M_bind. now rewrite H. Qed.

Lemma bind_assoc {A B C} (m : M A) (k : A → M B) (h : B → M C) (w : World) :
  ((m ≫= k) ≫= h) w = (m ≫= (λ a, k a ≫= h)) w.
Proof.
  unfold mbind, M_bind. destruct (m w) as [[a | e |] w']; reflexivity.
Qed.

(** A call appends its event to the log, runs the collaborator on the store
    and leaves the task queue alone, however the collaborator ends. *)
Lemma call_spec {A} (ev : Event OTP) (f : act Store A) (w : World) :
  call ev f w =
  ((f (store w)).1,
   {| store := (f (store w)).2; calls := calls w ++ [ev];
      background_tasks := background_tasks w |}).
Proof.
  unfold call, log, on_store, mbind, M_bind. simpl.
  destruct (f (store w)) as [r s]. reflexivity.
Qed.

Lemma call_eq {A} (ev : Event OTP) (f : act Store A) (w : World) r s :
  f (store w) = (r, s) →
  call ev f w =
  (r, {| store := s; calls := calls w ++ [ev];
         background_tasks := background_tasks w |}).
Proof. intros H. rewrite call_spec, H. reflexivity. Qed.

End MonadFacts.

(** Runs a straight-line handler on the given collaborator results. *)
Ltac step_call H :=
  first
    [ erewrite bind_returned by (apply call_eq; simpl; exact H)
    | erewrite bind_raised by (apply call_eq; simpl; exact H)
    | erewrite bind_unfinished by (apply call_eq; simpl; exact H)
    | erewrite call_eq by (simpl; exact H) ];
  simpl.

(** ** Password reset *)

Section ResetPasswordFacts.
Context {Store Session User OTP AsyncGen : Type}.
Variable sv : Services Store Session User OTP AsyncGen.

(** C1.  [reset_password] resolves the email and checks the token before
    anything else.  When the check returns a false flag, the handler returns
    that message and flag, the store is the one the check left, and the log
    holds no [password_reset] call.  When the check returns a true flag, the
    handler invokes [password_reset] with the email and the password payload
    and ends the way that call ends. *)
Theorem reset_password_checks_token_first
    (email : string) (password : ResetPassword.t OTP) (session : Session)
    (s s1 s2 : Store) (user : User) (message : value) (status : bool) :
  UserService_find_by_email sv {| session := Some session |} email s
    = (Returned user, s1) →
  OTPGenerator_check_otp sv
    {| user_id := User_id sv user; otp_session := session |}
    (ResetPassword.token password) s1
    = (Returned (message, status), s2) →
  let checked :=
    [Call_find_by_email email;
     Call_check_otp (User_id sv user) (ResetPassword.token password)] in
  let out := reset_password sv email password session (request_start s) in
  if status
  then out =
       ((UserService_password_reset sv {| session := Some session |}
           email password s2).1,
        {| store :=
             (UserService_password_reset sv {| session := Some session |}
                email password s2).2;
           calls := checked ++ [Call_password_reset email password];
           background_tasks := [] |})
  else out =
       (Returned (VDict [("detail", message); ("status", VBool false)]),
        {| store := s2; calls := checked; background_tasks := [] |})
       ∧ forallb (λ ev, negb (is_password_reset ev)) (calls out.2) = true.
Proof.
  intros Hfind Hcheck checked out. subst out checked.
  unfold reset_password.
  step_call Hfind. step_call Hcheck.
  destruct status; simpl.
  - rewrite call_spec. reflexivity.
  - split; reflexivity.
Qed.

End ResetPasswordFacts.

(** The scenario of the specification: the token ["000000"] is wrong for
    ["a@b.com"]; the response has status false and the stored row, password
    included, is the one of [store0]. *)
Lemma reset_password_wrong_token :
  InMemory.check_otp {| user_id := 7%N; otp_session := () |} "000000"
    InMemory.store0
  = (Returned (VStr "Invalid or expired OTP", false), InMemory.store0)
  ∧ (reset_password InMemory.services "a@b.com"
       {| ResetPassword.token := "000000";
          ResetPassword.new_password := "new-secret" |} ()
       (request_start InMemory.store0)
     = (Returned (VDict [("detail", VStr "Invalid or expired OTP");
                         ("status", VBool false)]),
        {| store := InMemory.store0;
           calls := [Call_find_by_email "a@b.com";
                     Call_check_otp 7%N "000000"];
           background_tasks := [] |})
     ∧ forallb (λ ev, negb (is_password_reset ev))
         (calls (reset_password InMemory.services "a@b.com"
                   {| ResetPassword.token := "000000";
                      ResetPassword.new_password := "new-secret" |} ()
                   (request_start InMemory.store0)).2) = true).
Proof.
  split; [reflexivity |].
  apply (reset_password_checks_token_first InMemory.services "a@b.com"
           {| ResetPassword.token := "000000";
              ResetPassword.new_password := "new-secret" |} ()
           InMemory.store0 InMemory.store0 InMemory.store0
           InMemory.alice (VStr "Invalid or expired OTP") false);
    reflexivity.
Defined.

(** With the pending code the reset goes through: the log ends with the
    [password_reset] call and the row holds the new password. *)
Example reset_password_right_token :
  let out :=
    reset_password InMemory.services "a@b.com"
      {| ResetPassword.token := "123456";
         ResetPassword.new_password := "new-secret" |} ()
      (request_start InMemory.store0) in
  out.1 = Returned (VDict [("detail", VStr "Password reset successful");
                           ("status", VBool true)])
  ∧ calls out.2 =
      [Call_find_by_email "a@b.com"; Call_check_otp 7%N "123456";
       Call_password_reset "a@b.com"
         {| ResetPassword.token := "123456";
            ResetPassword.new_password := "new-secret" |}]
  ∧ InMemory.row_password
      <$> InMemory.users (store out.2) !! "a@b.com" = Some "new-secret".
Proof. vm_compute. repeat split; reflexivity. Qed.

(** ** Token refresh *)

Section RefreshTokenFacts.
Context {Store Session User OTP AsyncGen : Type}.
Variable sv : Services Store Session User OTP AsyncGen.

(** C2.  [refresh_token] returns a body exactly when [refreshJWT] returns an
    access token for [R] and [decode_token] returns a user id for that access
    token; the body is then [{user_id, access_token, refresh_token}] with
    [refresh_token] the string [R] itself and [user_id] what [decode_token]
    returned for the new access token. *)
Theorem refresh_token_echoes (R : string) (s : Store) (body : value)
    (w' : World Store OTP) :
  refresh_token sv R (request_start s) = (Returned body, w')
  ↔ ∃ access s1 uid s2,
      refreshJWT sv R s = (Returned access, s1)
      ∧ UserService_decode_token sv {| session := None |} access s1
        = (Returned uid, s2)
      ∧ body = VDict [("user_id", uid); ("access_token", access);
                      ("refresh_token", VStr R)]
      ∧ w' = {| store := s2;
                calls := [Call_refreshJWT R; Call_decode_token access];
                background_tasks := [] |}.
Proof.
  unfold refresh_token. split.
  - destruct (refreshJWT sv R s) as [[access | e |] s1] eqn:Hrefresh;
      step_call Hrefresh; try discriminate.
    destruct (UserService_decode_token sv {| session := None |} access s1)
      as [[uid | e |] s2] eqn:Hdecode;
      step_call Hdecode; try discriminate.
    intros [= <- <-]. exists access, s1, uid, s2. auto.
  - intros (access & s1 & uid & s2 & Hrefresh & Hdecode & -> & ->).
    step_call Hrefresh. step_call Hdecode. reflexivity.
Qed.

End RefreshTokenFacts.

(** The scenario of the specification: the refresh token ["R1"] comes back
    as it went in. *)
Lemma refresh_token_R1 :
  refresh_token InMemory.services "R1" (request_start InMemory.store0)
  = (Returned (VDict [("user_id", VUuid 7%N);
                      ("access_token", VTuple [VStr "access"; VUuid 7%N]);
                      ("refresh_token", VStr "R1")]),
     {| store := InMemory.store0;
        calls := [Call_refreshJWT "R1";
                  Call_decode_token (VTuple [VStr "access"; VUuid 7%N])];
        background_tasks := [] |}).
Proof.
  apply (proj2 (refresh_token_echoes InMemory.services "R1"
                  InMemory.store0 _ _)).
  exists (VTuple [VStr "access"; VUuid 7%N]), InMemory.store0, (VUuid 7%N),
    InMemory.store0.
  repeat split; reflexivity.
Defined.

(** ** OTP issuance and verification *)

Section OtpFacts.
Context {Store Session User OTP AsyncGen : Type}.
Variable sv : Services Store Session User OTP AsyncGen.

(** C3.  When [find_by_email] raises NotFound for the email, both OTP-issuing
    handlers ([get_otp] for [GET /otp/send/{email}], [verify_email] for
    [GET /forgot_password/{email}]) raise NotFound with [find_by_email] as
    their only call: no [get_otp] call on the generator was made and the task
    queue is empty, so the request runs no mail task either. *)
Theorem unknown_email_stops_before_otp
    (email : string) (session : Session) (s s1 : Store) :
  UserService_find_by_email sv {| session := Some session |} email s
    = (Raised NotFound, s1) →
  let stopped : result value * World Store OTP :=
    (Raised NotFound,
     {| store := s1; calls := [Call_find_by_email email];
        background_tasks := [] |}) in
  get_otp sv email session (request_start s) = stopped
  ∧ verify_email sv email session (request_start s) = stopped
  ∧ serve sv (get_otp sv email session) (request_start s) = stopped
  ∧ serve sv (verify_email sv email session) (request_start s) = stopped.
Proof.
  intros Hfind stopped.
  assert (Hget : get_otp sv email session (request_start s) = stopped).
  { unfold get_otp. step_call Hfind. reflexivity. }
  assert (Hmail : verify_email sv email session (request_start s) = stopped).
  { unfold verify_email. step_call Hfind. reflexivity. }
  unfold serve. rewrite Hget, Hmail. auto.
Qed.

(** [verify_otp] hands the candidate code to [check_otp] of the generator of
    the resolved user and wraps the pair it gets. *)
Lemma verify_otp_checked (otp_data : OTPVerify.t OTP) (session : Session)
    (s s1 s2 : Store) (user : User) (message : value) (status : bool) :
  UserService_find_by_email sv {| session := Some session |}
    (OTPVerify.email otp_data) s = (Returned user, s1) →
  OTPGenerator_check_otp sv
    {| user_id := User_id sv user; otp_session := session |}
    (OTPVerify.otp otp_data) s1 = (Returned (message, status), s2) →
  verify_otp sv otp_data session (request_start s)
  = (Returned (VDict [("detail", message); ("status", VBool status)]),
     {| store := s2;
        calls := [Call_find_by_email (OTPVerify.email otp_data);
                  Call_check_otp (User_id sv user) (OTPVerify.otp otp_data)];
        background_tasks := [] |}).
Proof.
  intros Hfind Hcheck. unfold verify_otp.
  step_call Hfind. step_call Hcheck. reflexivity.
Qed.

End OtpFacts.

Lemma unknown_email_x :
  InMemory.find_by_email {| session := Some () |} "x@b.com" InMemory.store0
  = (Raised NotFound, InMemory.store0)
  ∧ get_otp InMemory.services "x@b.com" () (request_start InMemory.store0)
    = (Raised NotFound,
       {| store := InMemory.store0; calls := [Call_find_by_email "x@b.com"];
          background_tasks := [] |})
  ∧ verify_email InMemory.services "x@b.com" ()
      (request_start InMemory.store0)
    = (Raised NotFound,
       {| store := InMemory.store0; calls := [Call_find_by_email "x@b.com"];
          background_tasks := [] |}).
Proof.
  split; [reflexivity |].
  pose proof (unknown_email_stops_before_otp InMemory.services "x@b.com" ()
                InMemory.store0 InMemory.store0 eq_refl) as H.
  split; [exact (proj1 H) | exact (proj1 (proj2 H))].
Defined.

(** [check_otp] of the in-memory generator: it always returns, and its flag
    is true exactly for the pending code of the user while it has not
    expired. *)
Lemma check_otp_flag (g : OTPGenerator InMemory.Session) (otp : string)
    (st : InMemory.Store) :
  ∃ message status,
    InMemory.check_otp g otp st = (Returned (message, status), st)
    ∧ (status = true
       ↔ ∃ e, InMemory.otps st !! user_id g = Some e
              ∧ InMemory.code e = otp
              ∧ (InMemory.now st ≤ InMemory.expires_at e)%Z).
Proof.
  unfold InMemory.check_otp.
  destruct (InMemory.otps st !! user_id g) as [e |] eqn:Hpending.
  - destruct (bool_decide (InMemory.code e = otp)
              && bool_decide (InMemory.now st ≤ InMemory.expires_at e)%Z)
      eqn:Hok.
    + apply andb_prop in Hok as [Hcode Hfresh].
      apply bool_decide_eq_true in Hcode, Hfresh.
      eexists _, true. split; [reflexivity |]. split; [| done].
      intros _. exists e. auto.
    + eexists _, false. split; [reflexivity |]. split; [done |].
      intros (e' & [= <-] & Hcode & Hfresh).
      apply andb_false_iff in Hok as [Hok | Hok];
        apply bool_decide_eq_false in Hok; contradiction.
  - eexists _, false. split; [reflexivity |]. split; [done |].
    intros (e & [=] & _).
Qed.

(** C4.  For every implementation of the collaborators: when [find_by_email]
    raises NotFound so does [verify_otp], without a [check_otp] call; when it
    returns a user, [verify_otp] calls [check_otp] of that user's generator
    with the candidate code and returns [{detail: message, status: flag}] for
    the pair it gets.  With [check_otp] as the specification describes it,
    a known email always gets a body back (a mismatch raises nothing), with
    status true exactly when the code is the pending, unexpired one. *)
Theorem verify_otp_reports_check :
  (∀ (Store Session User OTP AsyncGen : Type)
     (sv : Services Store Session User OTP AsyncGen)
     (otp_data : OTPVerify.t OTP) (session : Session) (s s1 : Store),
     UserService_find_by_email sv {| session := Some session |}
       (OTPVerify.email otp_data) s = (Raised NotFound, s1) →
     verify_otp sv otp_data session (request_start s)
     = (Raised NotFound,
        {| store := s1;
           calls := [Call_find_by_email (OTPVerify.email otp_data)];
           background_tasks := [] |}))
  ∧ (∀ (Store Session User OTP AsyncGen : Type)
       (sv : Services Store Session User OTP AsyncGen)
       (otp_data : OTPVerify.t OTP) (session : Session) (s s1 s2 : Store)
       (user : User) (message : value) (status : bool),
       UserService_find_by_email sv {| session := Some session |}
         (OTPVerify.email otp_data) s = (Returned user, s1) →
       OTPGenerator_check_otp sv
         {| user_id := User_id sv user; otp_session := session |}
         (OTPVerify.otp otp_data) s1 = (Returned (message, status), s2) →
       verify_otp sv otp_data session (request_start s)
       = (Returned (VDict [("detail", message); ("status", VBool status)]),
          {| store := s2;
             calls := [Call_find_by_email (OTPVerify.email otp_data);
                       Call_check_otp (User_id sv user)
                         (OTPVerify.otp otp_data)];
             background_tasks := [] |}))
  ∧ (∀ (st : InMemory.Store) (email candidate : string)
       (row : InMemory.UserRow),
       InMemory.users st !! email = Some row →
       ∃ message status,
         verify_otp InMemory.services
           {| OTPVerify.email := email; OTPVerify.otp := candidate |} ()
           (request_start st)
         = (Returned (VDict [("detail", message); ("status", VBool status)]),
            {| store := st;
               calls := [Call_find_by_email email;
                         Call_check_otp (InMemory.row_id row) candidate];
               background_tasks := [] |})
         ∧ (status = true
            ↔ ∃ e, InMemory.otps st !! InMemory.row_id row = Some e
                   ∧ InMemory.code e = candidate
                   ∧ (InMemory.now st ≤ InMemory.expires_at e)%Z)).
Proof.
  split; [| split].
  - intros * Hfind. unfold verify_otp. step_call Hfind. reflexivity.
  - intros *. apply verify_otp_checked.
  - intros st email candidate row Hrow.
    destruct (check_otp_flag
                {| user_id := InMemory.row_id row; otp_session := () |}
                candidate st) as (message & status & Hcheck & Hflag).
    exists message, status. split; [| exact Hflag].
    apply (verify_otp_checked InMemory.services
             {| OTPVerify.email := email; OTPVerify.otp := candidate |} ()
             st st st row message status); simpl.
    + unfold InMemory.find_by_email. now rewrite Hrow.
    + exact Hcheck.
Qed.

(** The pending code of ["a@b.com"] verifies. *)
Lemma verify_otp_pending_code :
  InMemory.find_by_email {| session := Some () |} "a@b.com" InMemory.store0
  = (Returned InMemory.alice, InMemory.store0)
  ∧ InMemory.check_otp {| user_id := 7%N; otp_session := () |} "123456"
      InMemory.store0
    = (Returned (VStr "OTP verified", true), InMemory.store0)
  ∧ verify_otp InMemory.services
      {| OTPVerify.email := "a@b.com"; OTPVerify.otp := "123456" |} ()
      (request_start InMemory.store0)
    = (Returned (VDict [("detail", VStr "OTP verified");
                        ("status", VBool true)]),
       {| store := InMemory.store0;
          calls := [Call_find_by_email "a@b.com";
                    Call_check_otp 7%N "123456"];
          background_tasks := [] |}).
Proof.
  split; [reflexivity |]. split; [reflexivity |].
  exact (proj1 (proj2 verify_otp_reports_check) _ _ _ _ _
           InMemory.services
           {| OTPVerify.email := "a@b.com"; OTPVerify.otp := "123456" |} ()
           InMemory.store0 InMemory.store0 InMemory.store0
           InMemory.alice (VStr "OTP verified") true eq_refl eq_refl).
Defined.

(** A wrong code is answered with status false, not with an exception. *)
Example verify_otp_wrong_code :
  (verify_otp InMemory.services
     {| OTPVerify.email := "a@b.com"; OTPVerify.otp := "000000" |} ()
     (request_start InMemory.store0)).1
  = Returned (VDict [("detail", VStr "Invalid or expired OTP");
                     ("status", VBool false)]).
Proof. reflexivity. Qed.

(** ** Username update *)

Section UpdateUsernameFacts.
Context {Store Session User OTP AsyncGen : Type}.
Variable sv : Services Store Session User OTP AsyncGen.

Lemma yielded_round (items : list Item) :
  yielded (OTP := OTP) (flat_map round items) = items.
Proof.
  induction items as [| it items IH]; [reflexivity |].
  simpl. unfold yielded in *. simpl. now rewrite IH.
Qed.

Lemma propagations_round (items : list Item) :
  propagations (OTP := OTP) (flat_map round items)
  = map (λ it, (item_user_id it, item_username it)) items.
Proof.
  induction items as [| it items IH]; [reflexivity |].
  simpl. unfold propagations in *. simpl. now rewrite IH.
Qed.

Lemma yielded_rounds (items : list Item) :
  yielded (OTP := OTP) (rounds items) = items.
Proof.
  unfold rounds, yielded. rewrite omap_app. simpl.
  rewrite app_nil_r. apply yielded_round.
Qed.

Lemma propagations_rounds (items : list Item) :
  propagations (OTP := OTP) (rounds items)
  = map (λ it, (item_user_id it, item_username it)) items.
Proof.
  unfold rounds, propagations. rewrite omap_app. simpl.
  rewrite app_nil_r. apply propagations_round.
Qed.

(** The propagation of one item: one call, logged, whatever its outcome. *)
Lemma propagate_eq (item : Item) (w : World Store OTP) :
  propagate sv item w =
  let w' := {| store := (update_username_in_social sv (item_user_id item)
                           (item_username item) (store w)).2;
               calls := calls w
                        ++ [Call_update_username_in_social
                              (item_user_id item) (item_username item)];
               background_tasks := background_tasks w |} in
  match (update_username_in_social sv (item_user_id item)
           (item_username item) (store w)).1 with
  | Returned _ => (Returned (), w')
  | Raised e => (Raised e, w')
  | Unfinished => (Unfinished, w')
  end.
Proof.
  unfold propagate, mbind, M_bind. rewrite call_spec.
  destruct (update_username_in_social sv _ _ (store w)) as [[r | e |] s'];
    reflexivity.
Qed.

(** One round of the loop. *)
Lemma async_for_step (fuel : nat) (gen : AsyncGen) (body : Item → M Store OTP ())
    (w : World Store OTP) :
  async_for sv (S fuel) gen body w =
  let resumed (s1 : Store) (evs : list (Event OTP)) :=
    {| store := s1; calls := calls w ++ Call_anext :: evs;
       background_tasks := background_tasks w |} in
  match AsyncGen_anext sv gen (store w) with
  | (Returned (Some (item, gen')), s1) =>
      (body item ≫= λ _, async_for sv fuel gen' body)
        (resumed s1 [Yield item])
  | (Returned None, s1) => (Returned (), resumed s1 [])
  | (Raised e, s1) => (Raised e, resumed s1 [])
  | (Unfinished, s1) => (Unfinished, resumed s1 [])
  end.
Proof.
  cbn [async_for]. unfold mbind at 1, M_bind at 1. rewrite call_spec.
  destruct (AsyncGen_anext sv gen (store w)) as [[[[item gen'] |] | e |] s1];
    cbn [fst snd]; try reflexivity.
  unfold mbind at 1, M_bind at 1. cbn [log calls store background_tasks].
  rewrite <- app_assoc. reflexivity.
Qed.

(** The log of any run of the loop, complete or not: whole rounds, one per
    item received, then at most the resumption that got no item. *)
Lemma async_for_log (fuel : nat) (gen : AsyncGen) (w : World Store OTP) :
  ∃ items,
    (calls (async_for sv fuel gen (propagate sv) w).2 = calls w ++ rounds items
     ∨ (calls (async_for sv fuel gen (propagate sv) w).2
        = calls w ++ flat_map round items
        ∧ (async_for sv fuel gen (propagate sv) w).1 ≠ Returned ()))
    ∧ ((async_for sv fuel gen (propagate sv) w).1 = Returned () →
       calls (async_for sv fuel gen (propagate sv) w).2 = calls w ++ rounds items)
    ∧ background_tasks (async_for sv fuel gen (propagate sv) w).2
      = background_tasks w.
Proof.
  revert gen w. induction fuel as [| fuel IH]; intros gen w.
  - exists []. simpl. rewrite app_nil_r. split; [right |]; done.
  - rewrite async_for_step. cbv zeta.
    destruct (AsyncGen_anext sv gen (store w)) as [[[[item gen'] |] | e |] s1].
    2-4: exists []; simpl; split; [left |]; done.
    unfold mbind, M_bind. rewrite propagate_eq. cbv zeta.
    cbn [store calls background_tasks].
    destruct (update_username_in_social sv (item_user_id item)
                (item_username item) s1) as [[r | e |] s2]; cbn [fst snd].
    + match goal with
      | |- context [async_for sv fuel gen' _ ?w2] =>
          destruct (IH gen' w2) as (items & Hlog & Hret & Htasks)
      end.
      exists (item :: items). cbn [calls background_tasks] in *.
      unfold rounds in *. cbn [flat_map round].
      rewrite <- !app_assoc in *. cbn [app] in *.
      split; [| split]; [| exact Hret | exact Htasks].
      destruct Hlog as [Hlog | [Hlog Hn]]; [left | right]; auto.
    + exists [item]. cbn [calls background_tasks flat_map round].
      rewrite <- !app_assoc. cbn [app]. split; [right |]; done.
    + exists [item]. cbn [calls background_tasks flat_map round].
      rewrite <- !app_assoc. cbn [app]. split; [right |]; done.
Qed.

(** A generator that ends after [items], every propagation returning, is
    consumed by the loop as soon as the fuel exceeds the number of items. *)
Lemma async_for_drains (gen : AsyncGen) (s s' : Store) (items : list Item) :
  drains sv gen s items s' →
  ∀ fuel (w : World Store OTP),
    length items < fuel → store w = s →
    async_for sv fuel gen (propagate sv) w
    = (Returned (),
       {| store := s'; calls := calls w ++ rounds items;
          background_tasks := background_tasks w |}).
Proof.
  induction 1 as [gen s s' Hnext
                 | gen s item gen' s1 r s2 items s3 Hnext Hsocial _ IH];
    intros [| fuel] w Hfuel <-; simpl in Hfuel; try lia;
    rewrite async_for_step, Hnext; cbv zeta; [reflexivity |].
  unfold mbind, M_bind. rewrite propagate_eq. cbv zeta.
  cbn [store calls background_tasks]. rewrite Hsocial. cbn [fst snd].
  rewrite IH by (simpl; done || lia).
  cbn [calls background_tasks]. unfold rounds. cbn [flat_map round].
  rewrite <- !app_assoc. reflexivity.
Qed.

(** C5.  In every run of [update_username], complete or not, the log consists
    of whole rounds (the generator is resumed, yields an item, and
    [update_username_in_social] is called with that item's [user_id] and
    [username]), followed at most by the resumption that found the generator
    at its end: one propagation per item, in order, each before the next
    resumption.  Whenever the handler returns, it returns the success
    message.  It does return, with exactly these calls, when the generator
    ends after finitely many items and every propagation returns; with no
    item the only call is the resumption that ends the loop. *)
Theorem update_username_propagates_each_item
    (user_data : UsernameChange.t) (session : Session) (uid : UUID) :
  let gen :=
    UserService_update_username sv {| session := Some session |} uid
      (UsernameChange.new_username user_data) in
  let success :=
    VDict [("detail",
            VStr ("Username updated to "
                  +:+ UsernameChange.new_username user_data));
           ("status", VBool true)] in
  (∀ fuel s,
     let out :=
       update_username sv fuel user_data session uid (request_start s) in
     ∃ items,
       (calls out.2 = rounds items ∨ calls out.2 = flat_map round items)
       ∧ yielded (calls out.2) = items
       ∧ propagations (calls out.2)
         = map (λ it, (item_user_id it, item_username it)) items
       ∧ ∀ body, out.1 = Returned body →
                 body = success ∧ calls out.2 = rounds items)
  ∧ (∀ fuel s items s',
       drains sv gen s items s' → length items < fuel →
       update_username sv fuel user_data session uid (request_start s)
       = (Returned success,
          {| store := s'; calls := rounds items; background_tasks := [] |}))
  ∧ (∀ fuel s s',
       AsyncGen_anext sv gen s = (Returned None, s') → 0 < fuel →
       update_username sv fuel user_data session uid (request_start s)
       = (Returned success,
          {| store := s'; calls := [Call_anext];
             background_tasks := [] |})).
Proof.
  intros gen success.
  assert (Hdrains : ∀ fuel s items s',
            drains sv gen s items s' → length items < fuel →
            update_username sv fuel user_data session uid (request_start s)
            = (Returned success,
               {| store := s'; calls := rounds items;
                  background_tasks := [] |})).
  { intros fuel s items s' Hd Hfuel. unfold update_username.
    erewrite bind_returned; [reflexivity |].
    now apply (async_for_drains _ _ _ _ Hd). }
  split; [| split; [exact Hdrains |]].
  - intros fuel s out. subst out. unfold update_username. fold gen.
    destruct (async_for_log fuel gen (request_start s))
      as (items & Hlog & Hret & _).
    unfold mbind, M_bind. simpl in Hlog, Hret.
    destruct (async_for sv fuel gen (propagate sv) (request_start s))
      as [[[] | e |] w'] eqn:Hloop; unfold mret, M_ret; cbn [fst snd] in *;
      exists items.
    + rewrite Hret by reflexivity.
      rewrite yielded_rounds, propagations_rounds.
      do 3 (split; [auto |]). intros body [= <-]. split; reflexivity.
    + destruct Hlog as [-> | [-> _]];
        rewrite ?yielded_rounds, ?propagations_rounds,
          ?yielded_round, ?propagations_round;
        repeat split; auto; discriminate.
    + destruct Hlog as [-> | [-> _]];
        rewrite ?yielded_rounds, ?propagations_rounds,
          ?yielded_round, ?propagations_round;
        repeat split; auto; discriminate.
  - intros fuel s s' Hnext Hfuel.
    apply (Hdrains fuel s [] s'); [now constructor | exact Hfuel].
Qed.

End UpdateUsernameFacts.

(** The user 7 has two copies of the profile: the handler propagates the new
    name twice and answers with the success message. *)
Lemma update_username_two_profiles :
  update_username InMemory.services 3
    {| UsernameChange.new_username := "al" |} () 7%N
    (request_start InMemory.store0)
  = (Returned (VDict [("detail", VStr "Username updated to al");
                      ("status", VBool true)]),
     {| store :=
          InMemory.add_social (VUuid 7%N) (VStr "al")
            (InMemory.add_social (VUuid 7%N) (VStr "al")
               (InMemory.set_users (fmap (InMemory.set_username 7%N "al"))
                  InMemory.store0));
        calls :=
          rounds
            [ {| item_user_id := VUuid 7%N; item_username := VStr "al" |};
              {| item_user_id := VUuid 7%N; item_username := VStr "al" |} ];
        background_tasks := [] |}).
Proof.
  apply (proj1 (proj2 (update_username_propagates_each_item
                         InMemory.services
                         {| UsernameChange.new_username := "al" |} () 7%N))).
  - eapply drains_yield; [reflexivity | reflexivity |].
    eapply drains_yield; [reflexivity | reflexivity |].
    apply drains_stop. reflexivity.
  - simpl. lia.
Defined.

(** ** Password reset and OTP verification *)

Section ResetRefinesVerify.
Context {Store Session User OTP AsyncGen : Type}.
Variable sv : Services Store Session User OTP AsyncGen.

(** C6.  [reset_password] is [verify_otp] on the same email and code,
    followed by the branch on the status: the two handlers make the same
    calls and reach the same world; a body with status false is returned by
    [reset_password] as it is, a body with status true is followed by the
    [password_reset] call, and when [verify_otp] raises so does
    [reset_password]. *)
Theorem reset_password_refines_verify_otp
    (email : string) (password : ResetPassword.t OTP) (session : Session)
    (w : World Store OTP) :
  let otp_data :=
    {| OTPVerify.email := email;
       OTPVerify.otp := ResetPassword.token password |} in
  reset_password sv email password session w
  = reset_password_via_verify_otp sv email password session w
  ∧ (∀ body w',
       verify_otp sv otp_data session w = (Returned body, w') →
       ∃ message status,
         body = VDict [("detail", message); ("status", VBool status)]
         ∧ reset_password sv email password session w
           = if status
             then call (Call_password_reset email password)
                    (UserService_password_reset sv
                       {| session := Some session |} email password) w'
             else (Returned body, w'))
  ∧ (∀ e w',
       verify_otp sv otp_data session w = (Raised e, w') →
       reset_password sv email password session w = (Raised e, w'))
  ∧ (∀ w',
       verify_otp sv otp_data session w = (Unfinished, w') →
       reset_password sv email password session w = (Unfinished, w')).
Proof.
  intros otp_data. subst otp_data.
  unfold reset_password_via_verify_otp.
  unfold reset_password, verify_otp.
  unfold mbind, M_bind. cbn [OTPVerify.email OTPVerify.otp user_id].
  destruct (call (Call_find_by_email email) _ w) as [[user | e |] w1].
  2-3: repeat split; intros; congruence.
  destruct (call (Call_check_otp (User_id sv user) _) _ w1)
    as [[[message status] | e |] w2].
  2-3: repeat split; intros; congruence.
  unfold mret, M_ret.
  split; [destruct status; reflexivity |].
  split; [| split; intros; discriminate].
  intros body w' [= <- <-]. exists message, status.
  split; [reflexivity |]. destruct status; reflexivity.
Qed.

End ResetRefinesVerify.

(** On the wrong token ["000000"], [verify_otp] answers with status false
    and [reset_password] returns that very body from the same world. *)
Lemma reset_password_short_circuit :
  verify_otp InMemory.services
    {| OTPVerify.email := "a@b.com"; OTPVerify.otp := "000000" |} ()
    (request_start InMemory.store0)
  = (Returned (VDict [("detail", VStr "Invalid or expired OTP");
                      ("status", VBool false)]),
     {| store := InMemory.store0;
        calls := [Call_find_by_email "a@b.com"; Call_check_otp 7%N "000000"];
        background_tasks := [] |})
  ∧ ∃ message status,
      VDict [("detail", VStr "Invalid or expired OTP");
             ("status", VBool false)]
      = VDict [("detail", message); ("status", VBool status)]
      ∧ reset_password InMemory.services "a@b.com"
          {| ResetPassword.token := "000000";
             ResetPassword.new_password := "new-secret" |} ()
          (request_start InMemory.store0)
        = if status
          then call (Call_password_reset "a@b.com"
                       {| ResetPassword.token := "000000";
                          ResetPassword.new_password := "new-secret" |})
                 (InMemory.password_reset {| session := Some () |} "a@b.com"
                    {| ResetPassword.token := "000000";
                       ResetPassword.new_password := "new-secret" |})
                 {| store := InMemory.store0;
                    calls := [Call_find_by_email "a@b.com";
                              Call_check_otp 7%N "000000"];
                    background_tasks := [] |}
          else (Returned (VDict [("detail", VStr "Invalid or expired OTP");
                                 ("status", VBool false)]),
                {| store := InMemory.store0;
                   calls := [Call_find_by_email "a@b.com";
                             Call_check_otp 7%N "000000"];
                   background_tasks := [] |}).
Proof.
  split; [reflexivity |].
  exact (proj1 (proj2 (reset_password_refines_verify_otp InMemory.services
                         "a@b.com"
                         {| ResetPassword.token := "000000";
                            ResetPassword.new_password := "new-secret" |} ()
                         (request_start InMemory.store0)))
           _ _ eq_refl).
Defined.

(** ** The mail tasks *)

Section MailFacts.
Context {Store Session User OTP AsyncGen : Type}.
Variable sv : Services Store Session User OTP AsyncGen.

(** [get_otp] on a resolved email whose generator hands out [code]. *)
Lemma get_otp_issued (email : string) (session : Session)
    (w : World Store OTP) (s1 s2 : Store) (user : User) (code : OTP) :
  UserService_find_by_email sv {| session := Some session |} email (store w)
    = (Returned user, s1) →
  OTPGenerator_get_otp sv
    {| user_id := User_id sv user; otp_session := session |} s1
    = (Returned code, s2) →
  get_otp sv email session w
  = (Returned (VDict [("detail", VStr "OTP has been sent to your email");
                      ("status", VBool true)]),
     {| store := s2;
        calls := calls w
                 ++ [Call_find_by_email email; Call_get_otp (User_id sv user)];
        background_tasks :=
          background_tasks w
          ++ [{| func := send_mail;
                 kwargs :=
                   [("subject", VStr "OTP");
                    ("message",
                     VStr ("Complete your verification process with this OTP: "
                           +:+ OTP_format sv code));
                    ("recipient_list", VList [VStr email])] |}] |}).
Proof.
  intros Hfind Hotp. unfold get_otp.
  step_call Hfind. step_call Hotp.
  unfold mbind, M_bind, add_task, mret, M_ret. simpl.
  rewrite <- app_assoc. reflexivity.
Qed.

(** The task runner is no part of what [get_otp] computes. *)
Lemma get_otp_ignores_run_task
    (f : task_func → list (string * value) → act Store value)
    (email : string) (session : Session) (w : World Store OTP) :
  get_otp (with_run_task sv f) email session w = get_otp sv email session w.
Proof. reflexivity. Qed.

(** C7.  For a resolved email, [get_otp] only appends the [send_mail] task to
    the queue: its log holds the two calls [find_by_email] and [get_otp] and
    no task run, and its result is the same for every task runner.  In the
    request, the response body is the handler's return value whether the
    mail task afterwards returns, raises or never completes; the task runs
    once, after the handler's calls. *)
Theorem get_otp_schedules_mail_only
    (email : string) (session : Session) (s s1 s2 : Store) (user : User)
    (code : OTP) :
  UserService_find_by_email sv {| session := Some session |} email s
    = (Returned user, s1) →
  OTPGenerator_get_otp sv
    {| user_id := User_id sv user; otp_session := session |} s1
    = (Returned code, s2) →
  let body :=
    VDict [("detail", VStr "OTP has been sent to your email");
           ("status", VBool true)] in
  let mail :=
    [("subject", VStr "OTP");
     ("message",
      VStr ("Complete your verification process with this OTP: "
            +:+ OTP_format sv code));
     ("recipient_list", VList [VStr email])] in
  let handled := [Call_find_by_email email; Call_get_otp (User_id sv user)] in
  get_otp sv email session (request_start s)
  = (Returned body,
     {| store := s2; calls := handled;
        background_tasks := [{| func := send_mail; kwargs := mail |}] |})
  ∧ forallb (λ ev, negb (is_task_run ev))
      (calls (get_otp sv email session (request_start s)).2) = true
  ∧ ∀ f : task_func → list (string * value) → act Store value,
      get_otp (with_run_task sv f) email session (request_start s)
      = get_otp sv email session (request_start s)
      ∧ serve (with_run_task sv f)
          (get_otp (with_run_task sv f) email session) (request_start s)
        = (Returned body,
           {| store := (f send_mail mail s2).2;
              calls := handled ++ [Call_task send_mail mail];
              background_tasks := [{| func := send_mail; kwargs := mail |}] |}).
Proof.
  intros Hfind Hotp body mail handled. subst body mail handled.
  pose proof (get_otp_issued email session (request_start s) s1 s2 user code
                Hfind Hotp) as Hrun.
  cbn [request_start calls background_tasks app] in Hrun.
  split; [exact Hrun |]. split; [now rewrite Hrun |].
  intros f. split; [reflexivity |].
  unfold serve. rewrite get_otp_ignores_run_task, Hrun.
  cbn [background_tasks run_background kwargs func].
  unfold mbind, M_bind. rewrite call_spec.
  cbn [with_run_task run_task store calls background_tasks fst snd].
  destruct (f send_mail _ s2) as [[r | e |] s3]; reflexivity.
Qed.

(** C9.  For a resolved email whose generator hands out [code], the task
    that [verify_email] queues is [send_mail] with [subject] the one-element
    tuple [("Forgot Password",)], [message] the single line ending in the
    code, and [recipient_list] the list of the one requesting address; it is
    the only task in the queue, however [forgot_password] ends. *)
Theorem verify_email_mail_task
    (email : string) (session : Session) (s s1 s2 : Store) (user : User)
    (code : OTP) :
  UserService_find_by_email sv {| session := Some session |} email s
    = (Returned user, s1) →
  OTPGenerator_get_otp sv
    {| user_id := User_id sv user; otp_session := session |} s1
    = (Returned code, s2) →
  background_tasks (verify_email sv email session (request_start s)).2
  = [{| func := send_mail;
        kwargs :=
          [("subject", VTuple [VStr "Forgot Password"]);
           ("message",
            VStr ("Complete the process with this token: "
                  +:+ OTP_format sv code));
           ("recipient_list", VList [VStr email])] |}]
  ∧ calls (verify_email sv email session (request_start s)).2
    = [Call_find_by_email email; Call_get_otp (User_id sv user);
       Call_forgot_password email].
Proof.
  intros Hfind Hotp. unfold verify_email.
  step_call Hfind. step_call Hotp.
  unfold mbind, M_bind, add_task. rewrite call_spec. split; reflexivity.
Qed.

(** C10.  Whatever [get_otp] returns is the constant body
    [{detail: "OTP has been sent to your email", status: true}]: two runs
    from the same world with different OTP sources that both return have the
    same body.  The code reaches the queued mail only. *)
Theorem get_otp_response_is_constant
    (email : string) (session : Session) (w : World Store OTP) :
  let body :=
    VDict [("detail", VStr "OTP has been sent to your email");
           ("status", VBool true)] in
  (∀ (g : OTPGenerator Session → act Store OTP) b w',
     get_otp (with_get_otp sv g) email session w = (Returned b, w') →
     b = body)
  ∧ (∀ (g1 g2 : OTPGenerator Session → act Store OTP) b1 w1 b2 w2,
       get_otp (with_get_otp sv g1) email session w = (Returned b1, w1) →
       get_otp (with_get_otp sv g2) email session w = (Returned b2, w2) →
       b1 = b2)
  ∧ (∀ (g : OTPGenerator Session → act Store OTP) user s1 code s2,
       UserService_find_by_email sv {| session := Some session |} email
         (store w) = (Returned user, s1) →
       g {| user_id := User_id sv user; otp_session := session |} s1
         = (Returned code, s2) →
       get_otp (with_get_otp sv g) email session w
       = (Returned body,
          {| store := s2;
             calls := calls w ++ [Call_find_by_email email;
                                  Call_get_otp (User_id sv user)];
             background_tasks :=
               background_tasks w
               ++ [{| func := send_mail;
                      kwargs :=
                        [("subject", VStr "OTP");
                         ("message",
                          VStr
                            ("Complete your verification process with this OTP: "
                             +:+ OTP_format sv code));
                         ("recipient_list", VList [VStr email])] |}] |})).
Proof.
  intros body.
  assert (Hconst : ∀ (g : OTPGenerator Session → act Store OTP) b w',
            get_otp (with_get_otp sv g) email session w = (Returned b, w') →
            b = body).
  { intros g b w'. unfold get_otp, mbind, M_bind.
    destruct (call (Call_find_by_email email) _ w) as [[user | e |] wa];
      try discriminate.
    destruct (call (Call_get_otp _) _ wa) as [[code | e |] wb];
      try discriminate.
    unfold add_task, mret, M_ret. now intros [= <- _]. }
  split; [exact Hconst |]. split.
  - intros g1 g2 b1 w1 b2 w2 H1 H2.
    rewrite (Hconst g1 b1 w1 H1), (Hconst g2 b2 w2 H2). reflexivity.
  - intros g user s1 code s2 Hfind Hotp.
    unfold get_otp. step_call Hfind. step_call Hotp.
    unfold mbind, M_bind, add_task, mret, M_ret. simpl.
    rewrite <- app_assoc. reflexivity.
Qed.

End MailFacts.

(** For ["a@b.com"] the handler queues the mail with the pending code and
    runs nothing; a task runner that raises changes neither the response nor
    the handler's part of the log. *)
Lemma get_otp_mail_not_awaited :
  get_otp InMemory.services "a@b.com" () (request_start InMemory.store0)
  = (Returned (VDict [("detail", VStr "OTP has been sent to your email");
                      ("status", VBool true)]),
     {| store := InMemory.store0;
        calls := [Call_find_by_email "a@b.com"; Call_get_otp 7%N];
        background_tasks :=
          [{| func := send_mail;
              kwargs :=
                [("subject", VStr "OTP");
                 ("message",
                  VStr "Complete your verification process with this OTP: 123456");
                 ("recipient_list", VList [VStr "a@b.com"])] |}] |})
  ∧ (serve
       (with_run_task InMemory.services
          (λ _ _ st, (Raised (OtherError "SMTPException"), st)))
       (get_otp
          (with_run_task InMemory.services
             (λ _ _ st, (Raised (OtherError "SMTPException"), st)))
          "a@b.com" ())
       (request_start InMemory.store0)).1
    = Returned (VDict [("detail", VStr "OTP has been sent to your email");
                       ("status", VBool true)]).
Proof.
  pose proof (get_otp_schedules_mail_only InMemory.services "a@b.com" ()
                InMemory.store0 InMemory.store0 InMemory.store0
                InMemory.alice "123456" eq_refl eq_refl) as H.
  split; [exact (proj1 H) |].
  exact (f_equal fst
           (proj2 (proj2 (proj2 H)
                     (λ _ _ st, (Raised (OtherError "SMTPException"), st))))).
Defined.

(** The forgot-password mail for ["a@b.com"]. *)
Lemma verify_email_mail_for_alice :
  background_tasks
    (verify_email InMemory.services "a@b.com" ()
       (request_start InMemory.store0)).2
  = [{| func := send_mail;
        kwargs :=
          [("subject", VTuple [VStr "Forgot Password"]);
           ("message", VStr "Complete the process with this token: 123456");
           ("recipient_list", VList [VStr "a@b.com"])] |}].
Proof.
  exact (proj1 (verify_email_mail_task InMemory.services "a@b.com" ()
                  InMemory.store0 InMemory.store0 InMemory.store0
                  InMemory.alice "123456" eq_refl eq_refl)).
Defined.

(** Two OTP sources, the pending code and the constant ["999999"]: the
    mails differ, the response bodies do not. *)
Lemma get_otp_two_codes :
  (get_otp (with_get_otp InMemory.services InMemory.get_otp) "a@b.com" ()
     (request_start InMemory.store0)
   = (Returned (VDict [("detail", VStr "OTP has been sent to your email");
                       ("status", VBool true)]),
      {| store := InMemory.store0;
         calls := [Call_find_by_email "a@b.com"; Call_get_otp 7%N];
         background_tasks :=
           [{| func := send_mail;
               kwargs :=
                 [("subject", VStr "OTP");
                  ("message",
                   VStr "Complete your verification process with this OTP: 123456");
                  ("recipient_list", VList [VStr "a@b.com"])] |}] |}))
  ∧ (get_otp (with_get_otp InMemory.services (λ _ st, (Returned "999999", st)))
       "a@b.com" () (request_start InMemory.store0)
     = (Returned (VDict [("detail", VStr "OTP has been sent to your email");
                         ("status", VBool true)]),
        {| store := InMemory.store0;
           calls := [Call_find_by_email "a@b.com"; Call_get_otp 7%N];
           background_tasks :=
             [{| func := send_mail;
                 kwargs :=
                   [("subject", VStr "OTP");
                    ("message",
                     VStr "Complete your verification process with this OTP: 999999");
                    ("recipient_list", VList [VStr "a@b.com"])] |}] |})).
Proof.
  pose proof (proj2 (proj2 (get_otp_response_is_constant InMemory.services
                              "a@b.com" ()
                              (request_start InMemory.store0)))) as H.
  split.
  - exact (H InMemory.get_otp InMemory.alice InMemory.store0 "123456"
             InMemory.store0 eq_refl eq_refl).
  - exact (H (λ _ st, (Returned "999999", st)) InMemory.alice
             InMemory.store0 "999999" InMemory.store0 eq_refl eq_refl).
Defined.

(** ** The example schemas *)

Module SchemaFacts.
Import Schemas.

(** C8.  The fields of [ExampleSchema] are those of [ExampleCreateSchema]
    ([id], an optional UUID; [name], a string; [active], a boolean) followed
    by [created_at] and [updated_at], both optional timestamps: [None] and
    any timestamp are values of their annotation.  The class has
    [from_attributes] through its base, so an [ExampleSchema] is built from
    the attributes of an entity as well as from a mapping. *)
Theorem ExampleSchema_fields :
  model_fields ExampleCreateSchema
  = [ {| name := "id"; annotation_of := T_Optional T_UUID;
         default := Some VNone |};
      {| name := "name"; annotation_of := T_str; default := None |};
      {| name := "active"; annotation_of := T_bool; default := None |} ]
  ∧ model_fields ExampleSchema
    = model_fields ExampleCreateSchema
      ++ [ {| name := "created_at"; annotation_of := T_Optional T_datetime;
              default := None |};
           {| name := "updated_at"; annotation_of := T_Optional T_datetime;
              default := None |} ]
  ∧ conforms (T_Optional T_datetime) VNone = true
  ∧ (∀ t, conforms (T_Optional T_datetime) (VDatetime t) = true)
  ∧ from_attributes (model_config ExampleSchema) = true
  ∧ (∀ id name active created_at updated_at,
       model_validate ExampleSchema
         (FromObject (entity id name active created_at updated_at))
       = Some (entity id name active created_at updated_at))
  ∧ (∀ id name active created_at updated_at,
       model_validate ExampleSchema
         (FromDict (entity id name active created_at updated_at))
       = Some (entity id name active created_at updated_at)).
Proof.
  repeat split; try reflexivity;
    intros [id |] name active [created_at |] [updated_at |]; reflexivity.
Qed.

(** An entity whose timestamps are both unset is read through its
    attributes. *)
Example ExampleSchema_from_entity :
  model_validate ExampleSchema
    (FromObject (entity (Some 3%N) "first" true None None))
  = Some [("id", VUuid 3%N); ("name", VStr "first"); ("active", VBool true);
          ("created_at", VNone); ("updated_at", VNone)].
Proof. reflexivity. Qed.

(** Without [from_attributes] the same entity is refused. *)
Example no_from_attributes_refuses :
  model_validate
    (Class "Plain" BaseModel
       [ {| name := "name"; annotation_of := T_str; default := None |} ] None)
    (FromObject [("name", VStr "first")])
  = None.
Proof. reflexivity. Qed.

End SchemaFacts.

(** * Further properties of the handlers *)

Section HandlerFailures.
Context {Store Session User OTP AsyncGen : Type}.
Variable sv : Services Store Session User OTP AsyncGen.

(** X1.  Whatever the collaborators do, a [password_reset] call in the log of
    [reset_password] means that the email resolved to a user and that
    [check_otp] returned a true flag for the submitted token; the call is
    then the third and last one, with the email and payload of the request.
    An unknown email, a check that raises and a false flag all leave the
    password operation uncalled. *)
Theorem password_reset_only_after_true_flag
    (email : string) (password : ResetPassword.t OTP) (session : Session)
    (s : Store) :
  existsb is_password_reset
    (calls (reset_password sv email password session (request_start s)).2)
  = true →
  ∃ user s1 message s2,
    UserService_find_by_email sv {| session := Some session |} email s
      = (Returned user, s1)
    ∧ OTPGenerator_check_otp sv
        {| user_id := User_id sv user; otp_session := session |}
        (ResetPassword.token password) s1
      = (Returned (message, true), s2)
    ∧ calls (reset_password sv email password session (request_start s)).2
      = [Call_find_by_email email;
         Call_check_otp (User_id sv user) (ResetPassword.token password);
         Call_password_reset email password].
Proof.
  unfold reset_password.
  destruct (UserService_find_by_email sv {| session := Some session |}
              email s) as [[user | e |] s1] eqn:Hfind;
    step_call Hfind; try discriminate.
  destruct (OTPGenerator_check_otp sv
              {| user_id := User_id sv user; otp_session := session |}
              (ResetPassword.token password) s1)
    as [[[message status] | e |] s2] eqn:Hcheck;
    step_call Hcheck; try discriminate.
  destruct status; simpl; [| discriminate].
  intros _. exists user, s1, message, s2.
  rewrite call_spec. auto.
Qed.

(** X2.  When the email resolves and the generator's [get_otp] raises, both
    OTP-issuing handlers raise that exception: no mail task is queued and
    [verify_email] does not reach [forgot_password]. *)
Theorem failed_otp_source_queues_no_mail
    (email : string) (session : Session) (s s1 s2 : Store) (user : User)
    (e : exn) :
  UserService_find_by_email sv {| session := Some session |} email s
    = (Returned user, s1) →
  OTPGenerator_get_otp sv
    {| user_id := User_id sv user; otp_session := session |} s1
    = (Raised e, s2) →
  let stopped : result value * World Store OTP :=
    (Raised e,
     {| store := s2;
        calls := [Call_find_by_email email; Call_get_otp (User_id sv user)];
        background_tasks := [] |}) in
  get_otp sv email session (request_start s) = stopped
  ∧ verify_email sv email session (request_start s) = stopped.
Proof.
  intros Hfind Hotp stopped. subst stopped.
  unfold get_otp, verify_email.
  split; step_call Hfind; step_call Hotp; reflexivity.
Qed.

(** X3.  Once the email resolved and a code was handed out, [verify_email]
    ends the way [forgot_password] ends on the store the generator left: its
    return value is the response and its exception the handler's.  The mail
    is in the queue by then in either case; when [forgot_password] raises,
    the request ends with that exception and runs no task. *)
Theorem verify_email_ends_as_forgot_password
    (email : string) (session : Session) (s s1 s2 : Store) (user : User)
    (code : OTP) :
  UserService_find_by_email sv {| session := Some session |} email s
    = (Returned user, s1) →
  OTPGenerator_get_otp sv
    {| user_id := User_id sv user; otp_session := session |} s1
    = (Returned code, s2) →
  let ended :=
    UserService_forgot_password sv {| session := Some session |} email s2 in
  let after : World Store OTP :=
    {| store := ended.2;
       calls := [Call_find_by_email email; Call_get_otp (User_id sv user);
                 Call_forgot_password email];
       background_tasks :=
         [{| func := send_mail;
             kwargs :=
               [("subject", VTuple [VStr "Forgot Password"]);
                ("message",
                 VStr ("Complete the process with this token: "
                       +:+ OTP_format sv code));
                ("recipient_list", VList [VStr email])] |}] |} in
  verify_email sv email session (request_start s) = (ended.1, after)
  ∧ ∀ e, ended.1 = Raised e →
         serve sv (verify_email sv email session) (request_start s)
         = (Raised e, after).
Proof.
  intros Hfind Hotp ended after. subst ended after.
  assert (Hrun : verify_email sv email session (request_start s)
                 = ((UserService_forgot_password sv
                       {| session := Some session |} email s2).1,
                    {| store := (UserService_forgot_password sv
                                   {| session := Some session |} email s2).2;
                       calls := [Call_find_by_email email;
                                 Call_get_otp (User_id sv user);
                                 Call_forgot_password email];
                       background_tasks :=
                         [{| func := send_mail;
                             kwargs :=
                               [("subject", VTuple [VStr "Forgot Password"]);
                                ("message",
                                 VStr ("Complete the process with this token: "
                                       +:+ OTP_format sv code));
                                ("recipient_list", VList [VStr email])] |}]
                    |})).
  { unfold verify_email. step_call Hfind. step_call Hotp.
    unfold mbind, M_bind, add_task. rewrite call_spec. reflexivity. }
  split; [exact Hrun |].
  intros e He. unfold serve. rewrite Hrun, He. reflexivity.
Qed.

(** X4.  [refresh_token] raises exactly when [refreshJWT] raises, and then
    [decode_token] is not called, or when [decode_token] raises on the access
    token that [refreshJWT] just returned. *)
Theorem refresh_token_raises (R : string) (s : Store) (e : exn)
    (w' : World Store OTP) :
  refresh_token sv R (request_start s) = (Raised e, w')
  ↔ (∃ s1, refreshJWT sv R s = (Raised e, s1)
           ∧ w' = {| store := s1; calls := [Call_refreshJWT R];
                     background_tasks := [] |})
    ∨ (∃ access s1 s2,
         refreshJWT sv R s = (Returned access, s1)
         ∧ UserService_decode_token sv {| session := None |} access s1
           = (Raised e, s2)
         ∧ w' = {| store := s2;
                   calls := [Call_refreshJWT R; Call_decode_token access];
                   background_tasks := [] |}).
Proof.
  unfold refresh_token. split.
  - destruct (refreshJWT sv R s) as [[access | e' |] s1] eqn:Hrefresh;
      step_call Hrefresh; try discriminate.
    + destruct (UserService_decode_token sv {| session := None |} access s1)
        as [[uid | e' |] s2] eqn:Hdecode;
        step_call Hdecode; try discriminate.
      intros [= <- <-]. right. exists access, s1, s2. auto.
    + intros [= <- <-]. left. exists s1. auto.
  - intros [(s1 & Hrefresh & ->) | (access & s1 & s2 & Hrefresh & Hdecode & ->)].
    + step_call Hrefresh. reflexivity.
    + step_call Hrefresh. step_call Hdecode. reflexivity.
Qed.

End HandlerFailures.

Section QueueFacts.
Context {Store Session User OTP AsyncGen : Type}.
Variable sv : Services Store Session User OTP AsyncGen.

Lemma call_keeps_queue {A} (ev : Event OTP) (f : act Store A)
    (w : World Store OTP) :
  background_tasks (call ev f w).2 = background_tasks w.
Proof. rewrite call_spec. reflexivity. Qed.

Lemma bind_keeps_queue {A B} (m : M Store OTP A) (k : A → M Store OTP B)
    (w : World Store OTP) :
  (∀ w0, background_tasks (m w0).2 = background_tasks w0) →
  (∀ a w0, background_tasks (k a w0).2 = background_tasks w0) →
  background_tasks ((m ≫= k) w).2 = background_tasks w.
Proof.
  intros Hm Hk. unfold mbind, M_bind. specialize (Hm w).
  destruct (m w) as [[a | e |] w1]; simpl in *; [| done..].
  now rewrite Hk.
Qed.

(** X5.  [verify_otp], [reset_password], [refresh_token] and
    [update_username] never touch the task queue, whatever their
    collaborators answer: of the handlers modelled here only the two that
    issue an OTP and the signup schedule background work. *)
Theorem only_otp_issuance_queues_mail (w : World Store OTP) :
  (∀ otp_data session,
     background_tasks (verify_otp sv otp_data session w).2
     = background_tasks w)
  ∧ (∀ email password session,
       background_tasks (reset_password sv email password session w).2
       = background_tasks w)
  ∧ (∀ R, background_tasks (refresh_token sv R w).2 = background_tasks w)
  ∧ (∀ fuel user_data session uid,
       background_tasks (update_username sv fuel user_data session uid w).2
       = background_tasks w).
Proof.
  split; [| split; [| split]].
  - intros otp_data sess. unfold verify_otp.
    apply bind_keeps_queue; [intros; apply call_keeps_queue |].
    intros user w0.
    apply bind_keeps_queue; [intros; apply call_keeps_queue |].
    now intros [message status] w1.
  - intros email password sess. unfold reset_password.
    apply bind_keeps_queue; [intros; apply call_keeps_queue |].
    intros user w0.
    apply bind_keeps_queue; [intros; apply call_keeps_queue |].
    intros [message []] w1; simpl; [apply call_keeps_queue | done].
  - intros R. unfold refresh_token.
    apply bind_keeps_queue; [intros; apply call_keeps_queue |].
    intros access w0.
    apply bind_keeps_queue; [intros; apply call_keeps_queue |]. done.
  - intros fuel user_data sess uid. unfold update_username.
    apply bind_keeps_queue; [| done].
    intros w0.
    destruct (async_for_log sv fuel
                (UserService_update_username sv {| session := Some sess |}
                   uid (UsernameChange.new_username user_data)) w0)
      as (items & _ & _ & Hqueue).
    exact Hqueue.
Qed.

(** X6.  An OTP-issuing handler adds at most one task to the queue, and that
    task is [send_mail] with the address of the request as its only
    recipient, whatever the collaborators answer. *)
Theorem otp_mail_only_to_requester
    (email : string) (session : Session) (w : World Store OTP) :
  let to_requester (added : list Task) :=
    added = []
    ∨ ∃ subject message,
        added = [{| func := send_mail;
                    kwargs := [("subject", subject); ("message", VStr message);
                               ("recipient_list", VList [VStr email])] |}] in
  (∃ added,
     background_tasks (get_otp sv email session w).2
     = background_tasks w ++ added ∧ to_requester added)
  ∧ (∃ added,
       background_tasks (verify_email sv email session w).2
       = background_tasks w ++ added ∧ to_requester added).
Proof.
  intros to_requester. subst to_requester.
  split.
  - unfold get_otp, mbind, M_bind. rewrite call_spec.
    destruct (UserService_find_by_email sv _ email (store w))
      as [[user | e |] s1]; cbn [fst snd].
    2-3: exists []; rewrite app_nil_r; auto.
    rewrite call_spec. cbn [store calls background_tasks].
    destruct (OTPGenerator_get_otp sv _ s1) as [[code | e |] s2];
      cbn [fst snd].
    2-3: exists []; rewrite app_nil_r; auto.
    eexists. split; [reflexivity |]. right. eauto.
  - unfold verify_email, mbind, M_bind. rewrite call_spec.
    destruct (UserService_find_by_email sv _ email (store w))
      as [[user | e |] s1]; cbn [fst snd].
    2-3: exists []; rewrite app_nil_r; auto.
    rewrite call_spec. cbn [store calls background_tasks].
    destruct (OTPGenerator_get_otp sv _ s1) as [[code | e |] s2];
      cbn [fst snd].
    2-3: exists []; rewrite app_nil_r; auto.
    cbn [add_task]. rewrite call_spec. cbn [snd background_tasks].
    eexists. split; [reflexivity |]. right. eauto.
Qed.

End QueueFacts.

Section LoopFailures.
Context {Store Session User OTP AsyncGen : Type}.
Variable sv : Services Store Session User OTP AsyncGen.

(** After the rounds of [drains_to], the loop goes on from the generator and
    store reached, with what is left of the fuel. *)
Lemma async_for_drains_to (gen gen' : AsyncGen) (s s' : Store)
    (items : list Item) :
  drains_to sv gen s items gen' s' →
  ∀ fuel (w : World Store OTP),
    store w = s →
    async_for sv (length items + fuel) gen (propagate sv) w
    = async_for sv fuel gen' (propagate sv)
        {| store := s'; calls := calls w ++ flat_map round items;
           background_tasks := background_tasks w |}.
Proof.
  induction 1 as [gen s
                 | gen s item gen1 s1 r s2 items gen' s' Hnext Hsocial _ IH];
    intros fuel w <-.
  - destruct w as [s evs q]. simpl. now rewrite app_nil_r.
  - cbn [length Nat.add]. rewrite async_for_step, Hnext. cbv zeta.
    unfold mbind, M_bind. rewrite propagate_eq. cbv zeta.
    cbn [store calls background_tasks]. rewrite Hsocial. cbn [fst snd].
    rewrite IH by reflexivity.
    cbn [calls background_tasks flat_map round].
    rewrite <- !app_assoc. reflexivity.
Qed.

(** X7.  [update_username] stops at the first failure.  After any number of
    completed rounds, a resumption of the generator that raises, or a
    propagation that raises, is the last event of the log: the exception is
    the handler's, the item of a failed propagation is the last one received,
    the generator is not resumed again and no success message is returned. *)
Theorem update_username_stops_at_first_failure
    (user_data : UsernameChange.t) (session : Session) (uid : UUID)
    (fuel : nat) (s s1 : Store) (items : list Item) (gen1 : AsyncGen) :
  drains_to sv
    (UserService_update_username sv {| session := Some session |} uid
       (UsernameChange.new_username user_data))
    s items gen1 s1 →
  length items < fuel →
  (∀ e s2,
     AsyncGen_anext sv gen1 s1 = (Raised e, s2) →
     update_username sv fuel user_data session uid (request_start s)
     = (Raised e,
        {| store := s2; calls := flat_map round items ++ [Call_anext];
           background_tasks := [] |}))
  ∧ (∀ item gen2 s2 e s3,
       AsyncGen_anext sv gen1 s1 = (Returned (Some (item, gen2)), s2) →
       update_username_in_social sv (item_user_id item) (item_username item)
         s2 = (Raised e, s3) →
       update_username sv fuel user_data session uid (request_start s)
       = (Raised e,
          {| store := s3; calls := flat_map round (items ++ [item]);
             background_tasks := [] |})).
Proof.
  intros Hrounds Hfuel.
  destruct (Nat.le_exists_sub (S (length items)) fuel Hfuel) as (k & -> & _).
  replace (k + S (length items)) with (length items + S k) by lia.
  unfold update_username.
  split.
  - intros e s2 Hnext.
    erewrite bind_raised; [reflexivity |].
    rewrite (async_for_drains_to _ _ _ _ _ Hrounds) by reflexivity.
    rewrite async_for_step. cbn [store]. rewrite Hnext. reflexivity.
  - intros item gen2 s2 e s3 Hnext Hsocial.
    erewrite bind_raised; [reflexivity |].
    rewrite (async_for_drains_to _ _ _ _ _ Hrounds) by reflexivity.
    rewrite async_for_step. cbn [store]. rewrite Hnext. cbv zeta.
    unfold mbind, M_bind. rewrite propagate_eq. cbv zeta.
    cbn [store calls background_tasks]. rewrite Hsocial. cbn [fst snd].
    rewrite flat_map_app. cbn [flat_map round request_start calls].
    rewrite app_nil_r. cbn [app]. rewrite <- !app_assoc. reflexivity.
Qed.

End LoopFailures.

(** With the social service down, the rename of user 7 stops at the first of
    the two profile copies: one propagation call, no second resumption. *)
Lemma update_username_social_down :
  update_username
    (with_social InMemory.services InMemorySignup.social_down) 3
    {| UsernameChange.new_username := "al" |} () 7%N
    (request_start InMemory.store0)
  = (Raised (OtherError "ConnectionError"),
     {| store :=
          InMemory.set_users (fmap (InMemory.set_username 7%N "al"))
            InMemory.store0;
        calls :=
          [Call_anext;
           Yield {| item_user_id := VUuid 7%N; item_username := VStr "al" |};
           Call_update_username_in_social (VUuid 7%N) (VStr "al")];
        background_tasks := [] |}).
Proof.
  pose proof (update_username_stops_at_first_failure
                (with_social InMemory.services InMemorySignup.social_down)
                {| UsernameChange.new_username := "al" |} () 7%N 3
                InMemory.store0 InMemory.store0 []
                (InMemory.GStart 7%N "al")
                (drains_to_here _ _ _) (le_n_S _ _ (Nat.le_0_l _)))
    as [_ Hfailed].
  exact (Hfailed
           {| item_user_id := VUuid 7%N; item_username := VStr "al" |}
           _ _ _ _ eq_refl eq_refl).
Defined.

Section SignupFacts.
Context {Store Session OTP NewUser : Type}.
Variable create : UserService Session → NewUser → act Store value.

(** X8.  [create_user] ends the way [UserService.create_user] ends.  When
    that call returns, its value is the response and the one task queued is
    [create_profile] with that same value as its only argument; when it
    raises, nothing is queued.  In the request the response is that value
    whatever the profile task does afterwards. *)
Theorem create_user_schedules_profile
    (user : NewUser) (session : Session) (s s1 : Store) (r : result value) :
  create {| session := Some session |} user s = (r, s1) →
  create_user (OTP := OTP) create user session (request_start s)
  = (r, {| store := s1; calls := [];
           background_tasks :=
             match r with
             | Returned result =>
                 [{| func := create_profile;
                     kwargs := [("*args", VTuple [result])] |}]
             | _ => []
             end |})
  ∧ ∀ (User AsyncGen : Type)
      (sv : Services Store Session User OTP AsyncGen),
      (serve sv (create_user create user session) (request_start s)).1 = r.
Proof.
  intros Hcreate.
  assert (Hrun : create_user (OTP := OTP) create user session (request_start s)
                 = (r, {| store := s1; calls := [];
                          background_tasks :=
                            match r with
                            | Returned result =>
                                [{| func := create_profile;
                                    kwargs := [("*args", VTuple [result])] |}]
                            | _ => []
                            end |})).
  { unfold create_user, mbind, M_bind, on_store. cbn [request_start store].
    rewrite Hcreate. destruct r; reflexivity. }
  split; [exact Hrun |].
  intros User AsyncGen sv. unfold serve. rewrite Hrun.
  destruct r; reflexivity.
Qed.

End SignupFacts.

(** Bob signs up on [store0]: the response and the argument of the profile
    task are the same token record. *)
Lemma create_user_bob :
  create_user (OTP := string) InMemorySignup.create_user InMemorySignup.bob ()
    (request_start InMemory.store0)
  = (Returned (VDict [("user_id", VUuid 8%N);
                      ("access_token", VTuple [VStr "access"; VUuid 8%N]);
                      ("refresh_token", VStr "R2")]),
     {| store :=
          InMemory.set_users <["bob@b.com" := InMemorySignup.bob]>
            InMemory.store0;
        calls := [];
        background_tasks :=
          [{| func := create_profile;
              kwargs :=
                [("*args",
                  VTuple
                    [VDict [("user_id", VUuid 8%N);
                            ("access_token",
                             VTuple [VStr "access"; VUuid 8%N]);
                            ("refresh_token", VStr "R2")]])] |}] |}).
Proof.
  exact (proj1 (create_user_schedules_profile (OTP := string)
                  InMemorySignup.create_user InMemorySignup.bob ()
                  InMemory.store0 _ _ eq_refl)).
Defined.

(** The reset of ["a@b.com"] with the pending code: the password call is in
    the log, so the lookup and the check went through. *)
Lemma password_reset_was_checked :
  ∃ user s1 message s2,
    InMemory.find_by_email {| session := Some () |} "a@b.com" InMemory.store0
    = (Returned user, s1)
    ∧ InMemory.check_otp
        {| user_id := InMemory.row_id user; otp_session := () |} "123456" s1
      = (Returned (message, true), s2)
    ∧ calls (reset_password InMemory.services "a@b.com"
               {| ResetPassword.token := "123456";
                  ResetPassword.new_password := "new-secret" |} ()
               (request_start InMemory.store0)).2
      = [Call_find_by_email "a@b.com"; Call_check_otp (InMemory.row_id user)
                                         "123456";
         Call_password_reset "a@b.com"
           {| ResetPassword.token := "123456";
              ResetPassword.new_password := "new-secret" |}].
Proof.
  exact (password_reset_only_after_true_flag InMemory.services "a@b.com"
           {| ResetPassword.token := "123456";
              ResetPassword.new_password := "new-secret" |} ()
           InMemory.store0 eq_refl).
Defined.

(** With an OTP store that cannot be reached, neither handler queues a
    mail. *)
Lemma otp_store_down :
  get_otp
    (with_get_otp InMemory.services
       (λ _ st, (Raised (OtherError "ConnectionError"), st)))
    "a@b.com" () (request_start InMemory.store0)
  = (Raised (OtherError "ConnectionError"),
     {| store := InMemory.store0;
        calls := [Call_find_by_email "a@b.com"; Call_get_otp 7%N];
        background_tasks := [] |})
  ∧ verify_email
      (with_get_otp InMemory.services
         (λ _ st, (Raised (OtherError "ConnectionError"), st)))
      "a@b.com" () (request_start InMemory.store0)
    = (Raised (OtherError "ConnectionError"),
       {| store := InMemory.store0;
          calls := [Call_find_by_email "a@b.com"; Call_get_otp 7%N];
          background_tasks := [] |}).
Proof.
  exact (failed_otp_source_queues_no_mail
           (with_get_otp InMemory.services
              (λ _ st, (Raised (OtherError "ConnectionError"), st)))
           "a@b.com" () InMemory.store0 InMemory.store0 InMemory.store0
           InMemory.alice (OtherError "ConnectionError") eq_refl eq_refl).
Defined.

(** The forgot-password request of ["a@b.com"] answers with the body of
    [forgot_password]. *)
Lemma verify_email_alice :
  verify_email InMemory.services "a@b.com" () (request_start InMemory.store0)
  = (Returned (VDict [("detail", VStr "Password reset token sent");
                      ("status", VBool true)]),
     {| store := InMemory.store0;
        calls := [Call_find_by_email "a@b.com"; Call_get_otp 7%N;
                  Call_forgot_password "a@b.com"];
        background_tasks :=
          [{| func := send_mail;
              kwargs :=
                [("subject", VTuple [VStr "Forgot Password"]);
                 ("message",
                  VStr "Complete the process with this token: 123456");
                 ("recipient_list", VList [VStr "a@b.com"])] |}] |}).
Proof.
  exact (proj1 (verify_email_ends_as_forgot_password InMemory.services
                  "a@b.com" () InMemory.store0 InMemory.store0
                  InMemory.store0 InMemory.alice "123456" eq_refl eq_refl)).
Defined.

(** The refresh token ["R2"] is unknown: the handler raises what
    [refreshJWT] raises and [decode_token] stays uncalled. *)
Lemma refresh_token_R2 :
  refresh_token InMemory.services "R2" (request_start InMemory.store0)
  = (Raised TokenInvalid,
     {| store := InMemory.store0; calls := [Call_refreshJWT "R2"];
        background_tasks := [] |}).
Proof.
  apply (proj2 (refresh_token_raises InMemory.services "R2" InMemory.store0
                  TokenInvalid _)).
  left. exists InMemory.store0. split; reflexivity.
Defined.

(** * Further properties of the schemas *)

Module SchemaProperties.
Import Schemas.

Lemma redeclare_names (inherited : list FieldInfo) (f : FieldInfo) :
  name <$> redeclare inherited f
  = if existsb (λ g, String.eqb (name g) (name f)) inherited
    then name <$> inherited
    else (name <$> inherited) ++ [name f].
Proof.
  unfold redeclare.
  destruct (existsb _ inherited); [| now rewrite fmap_app].
  induction inherited as [| g rest IH]; [reflexivity |].
  cbn [map fmap list_fmap]. f_equal; [| exact IH].
  destruct (String.eqb (name g) (name f)) eqn:Hsame; [| reflexivity].
  apply String.eqb_eq in Hsame. congruence.
Qed.

Lemma existsb_name (inherited : list FieldInfo) (f : FieldInfo) :
  existsb (λ g, String.eqb (name g) (name f)) inherited = true
  ↔ name f ∈ name <$> inherited.
Proof.
  rewrite existsb_exists, list_elem_of_fmap. split.
  - intros (g & Hin & Hsame). apply String.eqb_eq in Hsame.
    exists g. split; [done |]. now apply list_elem_of_In.
  - intros (g & Hsame & Hin). exists g. split; [now apply list_elem_of_In |].
    apply String.eqb_eq. congruence.
Qed.

Lemma redeclare_all_names (own inherited : list FieldInfo) :
  NoDup (name <$> inherited) →
  NoDup (name <$> fold_left redeclare own inherited)
  ∧ (name <$> inherited) `prefix_of`
      (name <$> fold_left redeclare own inherited).
Proof.
  revert inherited. induction own as [| f own IH]; intros inherited Hnodup.
  - simpl. split; [exact Hnodup | reflexivity].
  - cbn [fold_left].
    assert (Hstep : NoDup (name <$> redeclare inherited f)
                    ∧ (name <$> inherited) `prefix_of`
                        (name <$> redeclare inherited f)).
    { rewrite redeclare_names.
      destruct (existsb _ inherited) eqn:Hknown; [done |].
      split; [| now apply prefix_app_r].
      apply NoDup_app. split; [exact Hnodup |].
      split; [| apply NoDup_singleton].
      intros x Hx [= ->]%list_elem_of_singleton.
      apply existsb_name in Hx. congruence. }
    destruct Hstep as [Hnodup' Hprefix].
    destruct (IH _ Hnodup') as [Hall Hrest].
    split; [exact Hall | now transitivity (name <$> redeclare inherited f)].
Qed.

Lemma model_fields_NoDup (cls : ModelClass) :
  NoDup (name <$> model_fields cls).
Proof.
  induction cls as [| cls_name base IH own own_config].
  - apply NoDup_nil_2.
  - apply (redeclare_all_names own _ IH).
Qed.

(** X9.  No class has two fields of one name, and a subclass keeps every
    field of its base in the base's order: what the subclass declares
    replaces a field of that name in place or follows the inherited ones. *)
Theorem subclass_keeps_base_fields (cls : ModelClass) :
  NoDup (name <$> model_fields cls)
  ∧ ∀ cls_name own own_config,
      (name <$> model_fields cls) `prefix_of`
        (name <$> model_fields (Class cls_name cls own own_config)).
Proof.
  split; [apply model_fields_NoDup |].
  intros cls_name own own_config.
  apply (redeclare_all_names own _ (model_fields_NoDup cls)).
Qed.

(** What [validate_field] answers with. *)
Lemma validate_field_Some (given : list (string * value)) (f : FieldInfo)
    (e : string * value) :
  validate_field given f = Some e →
  e.1 = name f
  ∧ ((assoc (name f) given = Some e.2
      ∧ conforms (annotation_of f) e.2 = true)
     ∨ (assoc (name f) given = None ∧ default f = Some e.2)).
Proof.
  unfold validate_field.
  destruct (assoc (name f) given) as [v |].
  - destruct (conforms (annotation_of f) v) eqn:Hfits; [| discriminate].
    intros [= <-]. auto.
  - destruct (default f) as [d |]; [| discriminate].
    intros [= <-]. auto.
Qed.

Lemma model_validate_Some (cls : ModelClass) (obj : source)
    (inst : list (string * value)) :
  model_validate cls obj = Some inst →
  ∃ given,
    (obj = FromDict given
     ∨ (obj = FromObject given ∧ from_attributes (model_config cls) = true))
    ∧ Forall2 (λ f e, validate_field given f = Some e) (model_fields cls) inst.
Proof.
  unfold model_validate. destruct obj as [given | given].
  - intros H%mapM_Some. eauto.
  - destruct (from_attributes (model_config cls)) eqn:Hattr; [| discriminate].
    intros H%mapM_Some. eauto.
Qed.

Lemma validated_names (given : list (string * value))
    (fields : list FieldInfo) (inst : list (string * value)) :
  Forall2 (λ f e, validate_field given f = Some e) fields inst →
  inst.*1 = name <$> fields.
Proof.
  induction 1 as [| f e fs es Hfield _ IH]; [reflexivity |].
  apply validate_field_Some in Hfield as [Hname _].
  cbn [fmap list_fmap]. now rewrite Hname, IH.
Qed.


Lemma assoc_NoDup (entries : list (string * value)) (k : string)
    (v : value) :
  NoDup entries.*1 → (k, v) ∈ entries → assoc k entries = Some v.
Proof.
  induction entries as [| [k' v'] rest IH]; intros Hnodup Hin.
  - now apply elem_of_nil in Hin.
  - cbn [fmap list_fmap fst] in Hnodup. apply NoDup_cons in Hnodup as [Hk' Hrest].
    cbn [assoc]. apply elem_of_cons in Hin as [[= <- <-] | Hin].
    + now rewrite String.eqb_refl.
    + destruct (String.eqb k' k) eqn:Hsame; [| now apply IH].
      apply String.eqb_eq in Hsame as ->.
      destruct Hk'. apply list_elem_of_fmap. now exists (k, v).
Qed.

(** X11.  A field without a default is required: a mapping that does not
    carry its name is refused.  A field with a default may be left out, and
    the instance then holds the default under its name. *)
Theorem field_without_default_is_required (cls : ModelClass)
    (given : list (string * value)) (f : FieldInfo) :
  f ∈ model_fields cls →
  assoc (name f) given = None →
  match default f with
  | None => model_validate cls (FromDict given) = None
  | Some d =>
      ∀ inst, model_validate cls (FromDict given) = Some inst →
              assoc (name f) inst = Some d
  end.
Proof.
  intros Hfield Hmissing.
  destruct (default f) as [d |] eqn:Hdefault.
  - intros inst Hvalid.
    apply model_validate_Some in Hvalid as (given' & [[= <-] | [[=] _]] & Hall).
    pose proof (validated_names _ _ _ Hall) as Hnames.
    apply list_elem_of_lookup in Hfield as [i Hi].
    destruct (Forall2_lookup_l _ _ _ _ _ Hall Hi) as (e & He & Hvalue).
    unfold validate_field in Hvalue. rewrite Hmissing, Hdefault in Hvalue.
    injection Hvalue as <-.
    apply assoc_NoDup; [| now apply list_elem_of_lookup_2 in He].
    rewrite Hnames. apply model_fields_NoDup.
  - destruct (model_validate cls (FromDict given)) as [inst |] eqn:Hvalid;
      [| reflexivity].
    apply model_validate_Some in Hvalid as (given' & [[= <-] | [[=] _]] & Hall).
    apply list_elem_of_lookup in Hfield as [i Hi].
    destruct (Forall2_lookup_l _ _ _ _ _ Hall Hi) as (e & _ & Hvalue).
    unfold validate_field in Hvalue. rewrite Hmissing, Hdefault in Hvalue.
    discriminate.
Qed.

(** Validation against the instance itself gives the instance back, field by
    field, when the names are distinct and every value fits its field. *)
Lemma revalidate_fields (full : list (string * value))
    (fields : list FieldInfo) (inst : list (string * value)) :
  NoDup full.*1 →
  (∀ e, e ∈ inst → e ∈ full) →
  Forall2 (λ f e, e.1 = name f ∧ conforms (annotation_of f) e.2 = true)
    fields inst →
  Forall2 (λ f e, validate_field full f = Some e) fields inst.
Proof.
  intros Hnodup Hsub Hall.
  induction Hall as [| f [k v] fs es [Hname Hfits] _ IH]; [constructor |].
  constructor.
  - simpl in Hname, Hfits. subst k. unfold validate_field.
    rewrite (assoc_NoDup full (name f) v Hnodup)
      by (apply Hsub; now left).
    now rewrite Hfits.
  - apply IH. intros e He. apply Hsub. now right.
Qed.

(** X12.  Dumping and validating again is the identity: for a class whose
    defaults are values of their fields' annotations, an instance that
    validation produced validates, as a mapping, to itself. *)
Theorem validate_dump_round_trip (cls : ModelClass) (obj : source)
    (inst : list (string * value)) :
  Forall (λ f, ∀ d, default f = Some d → conforms (annotation_of f) d = true)
    (model_fields cls) →
  model_validate cls obj = Some inst →
  model_validate cls (FromDict inst) = Some inst.
Proof.
  intros Hdefaults (given & _ & Hall)%model_validate_Some.
  cbn [model_validate]. apply mapM_Some.
  apply revalidate_fields.
  - rewrite (validated_names _ _ _ Hall). apply model_fields_NoDup.
  - auto.
  - revert Hdefaults. induction Hall as [| f e fs es Hfield _ IH];
      intros Hdefaults; [constructor |].
    apply Forall_cons in Hdefaults as [Hd Hrest].
    constructor; [| now apply IH].
    apply validate_field_Some in Hfield as [Hname [[_ Hfits] | [_ Hdef]]];
      auto.
Qed.

(** The fields of [ExampleSchema]: five distinct names, the first three
    those of [ExampleCreateSchema]. *)
Lemma ExampleSchema_field_names :
  NoDup (name <$> model_fields ExampleCreateSchema)
  ∧ (name <$> model_fields ExampleCreateSchema) `prefix_of`
      (name <$> model_fields ExampleSchema).
Proof.
  split.
  - exact (proj1 (subclass_keeps_base_fields ExampleCreateSchema)).
  - exact (proj2 (subclass_keeps_base_fields ExampleCreateSchema)
             "ExampleSchema" _ None).
Defined.


(** [created_at] has no default: a mapping without it is refused, though
    its annotation is [Optional]. *)
Lemma ExampleSchema_needs_created_at :
  model_validate ExampleSchema
    (FromDict [("name", VStr "first"); ("active", VBool true);
               ("updated_at", VNone)])
  = None.
Proof.
  refine (field_without_default_is_required ExampleSchema
            [("name", VStr "first"); ("active", VBool true);
             ("updated_at", VNone)]
            {| name := "created_at"; annotation_of := T_Optional T_datetime;
               default := None |} _ eq_refl).
  vm_compute. do 3 right. left.
Defined.

(** [id] has the default [None]: left out, it is [None] in the instance. *)
Example ExampleCreateSchema_id_defaults :
  model_validate ExampleCreateSchema
    (FromDict [("name", VStr "first"); ("active", VBool true)])
  = Some [("id", VNone); ("name", VStr "first"); ("active", VBool true)].
Proof. reflexivity. Qed.

(** An [ExampleSchema] instance validates to itself. *)
Lemma ExampleSchema_round_trip :
  model_validate ExampleSchema
    (FromDict [("id", VUuid 3%N); ("name", VStr "first"); ("active", VBool true);
               ("created_at", VNone); ("updated_at", VDatetime 9%Z)])
  = Some [("id", VUuid 3%N); ("name", VStr "first"); ("active", VBool true);
          ("created_at", VNone); ("updated_at", VDatetime 9%Z)].
Proof.
  apply (validate_dump_round_trip ExampleSchema
           (FromObject (entity (Some 3%N) "first" true None (Some 9%Z)))).
  - repeat constructor; intros d [= <-]; reflexivity.
  - reflexivity.
Defined.

End SchemaProperties.
